(** * paircorrelation2d: the boundary-corrected pair correlation function

    A shallow embedding of [pcf2d] (src/paircorrelation2d.py) and the
    properties of it that the specification states.

    - numpy's float64 values are Rocq's primitive binary64 floats, so that
      division by zero, infinities and NaN behave as they do in the program;
    - numpy arrays and Python lists are lists, indexed the Python way
      (negative indices count from the end, an index out of range raises);
    - the shapely operations the program calls on the area of interest are
      the fields of the class [Geometry], and are taken to return; [buffer],
      which refuses a radius that is not finite, is modelled with its
      refusal;
    - [np.histogram] is the one numpy documents for an array of edges: a
      decreasing step is refused, every bin is half-open, the last is closed;
    - an exception raised by the program is a value of [exn];
    - [pcf2d] is the call with [show_timing] and [plot] left at [False],
      their default: the prints of the timings and the figures are not
      modelled. *)

From Stdlib Require Import ZArith Floats String Lia.
From Stdlib Require Uint63.
From stdpp Require Import base option list.

Local Open Scope float_scope.

(** ** Values and exceptions *)

(** Python's [float(n)] for the counts the program converts (exact below
    2^53, which no array length reaches). *)
Definition float_of_nat (n : nat) : float :=
  of_uint63 (Uint63.of_Z (Z.of_nat n)).

(** [np.pi], the binary64 number nearest to pi. *)
Definition np_pi : float := 0x1.921fb54442d18p+1.

(** The exceptions the call can end with. *)
Inductive exn :=
| AttributeError (msg : string)
| ZeroDivisionError (msg : string)
| IndexError (msg : string)
| ValueError (msg : string).

Inductive outcome (A : Type) :=
| Returned (a : A)
| Raised (e : exn).
Arguments Returned {A} a.
Arguments Raised {A} e.

Definition bind {A B} (m : outcome A) (k : A -> outcome B) : outcome B :=
  match m with
  | Returned a => k a
  | Raised e => Raised e
  end.

Notation "'let*' x ':=' m 'in' k" :=
  (bind m (fun x => k))
  (at level 10, x pattern, m at level 100, k at level 200).

(** A [for] loop that threads the loop's variables and stops at the first
    exception. *)
Fixpoint for_each {S X} (body : S -> X -> outcome S) (xs : list X) (s : S)
  : outcome S :=
  match xs with
  | [] => Returned s
  | x :: xs' => let* s' := body s x in for_each body xs' s'
  end.

Fixpoint map_each {X Y} (f : X -> outcome Y) (xs : list X) : outcome (list Y) :=
  match xs with
  | [] => Returned []
  | x :: xs' => let* y := f x in let* ys := map_each f xs' in Returned (y :: ys)
  end.

(** ** Python and numpy containers *)

(** The position an index [i] denotes in a sequence of length [n]. *)
Definition py_index (n : nat) (i : Z) : option nat :=
  if ((0 <=? i) && (i <? Z.of_nat n))%Z then Some (Z.to_nat i)
  else if ((- Z.of_nat n <=? i) && (i <? 0))%Z then Some (Z.to_nat (Z.of_nat n + i))
  else None.

Definition out_of_range : exn := IndexError "index out of range".

(** [l[i]] *)
Definition getitem {A} (l : list A) (i : Z) : outcome A :=
  match py_index (length l) i with
  | Some k => match l !! k with
              | Some x => Returned x
              | None => Raised out_of_range
              end
  | None => Raised out_of_range
  end.

(** [l[i] = x] *)
Definition setitem {A} (l : list A) (i : Z) (x : A) : outcome (list A) :=
  match py_index (length l) i with
  | Some k => Returned (<[k := x]> l)
  | None => Raised out_of_range
  end.

(** [range(n)] *)
Definition py_range (n : Z) : list Z := map Z.of_nat (seq 0 (Z.to_nat n)).

(** [np.zeros(n)] and [np.ones(n)]: a negative length is refused. *)
Definition np_full (x : float) (n : Z) : outcome (list float) :=
  if (n <? 0)%Z then Raised (ValueError "negative dimensions are not allowed")
  else Returned (replicate (Z.to_nat n) x).

Definition np_zeros : Z -> outcome (list float) := np_full zero.
Definition np_ones : Z -> outcome (list float) := np_full one.

(** [np.ones((rows, cols))] *)
Definition np_ones2 (rows : nat) (cols : Z) : outcome (list (list float)) :=
  let* row := np_ones cols in Returned (replicate rows row).

(** [np.where(mask)[0]]: the indices at which [mask] holds. *)
Fixpoint np_where_from (k : Z) (mask : list bool) : list Z :=
  match mask with
  | [] => []
  | b :: mask' => (if b then [k] else []) ++ np_where_from (k + 1) mask'
  end.

Definition np_where (mask : list bool) : list Z := np_where_from 0 mask.

(** [a[idx]] for an array of indices [idx]. *)
Definition take_indices {A} (a : list A) (idx : list Z) : outcome (list A) :=
  map_each (getitem a) idx.

(** [np.histogram(a, bins=bins)[0]] for an array of bin edges: the edges may not
    decrease; every bin is half-open but the last, which is closed. What numpy
    counts when an edge is NaN is not documented; no statement below rests on
    the counts of such edges, and no such edge reaches line 208: of two edges
    or more, [buffer] has refused it at lines 151-152. *)
Definition decreases (bins : list float) : bool :=
  existsb (fun '(lo, hi) => hi <? lo) (zip bins (tail bins)).

Definition count (f : float -> bool) (a : list float) : nat :=
  length (List.filter f a).

Fixpoint bin_counts (a : list float) (bins : list float) : list nat :=
  match bins with
  | lo :: (hi :: rest) as bins' =>
      match rest with
      | [] => [count (fun x => (lo <=? x) && (x <=? hi)) a]
      | _ :: _ => count (fun x => (lo <=? x) && (x <? hi)) a :: bin_counts a bins'
      end
  | _ => []
  end.

Definition np_histogram (a : list float) (bins : list float) : outcome (list nat) :=
  if decreases bins
  then Raised (ValueError "`bins` must increase monotonically, when an array")
  else Returned (bin_counts a bins).

(** ** The geometry the program asks shapely for *)

Definition point : Type := float * float.

(** The area of interest, as the program builds it: a polygon from a border
    (and holes), or the convex hull of the points. *)
Inductive region :=
| Polygon (shell : list point) (holes : option (list (list point)))
| convex_hull (points : list point).

(** What intersecting the area of interest with the points can give. Only a
    multi-part geometry has [geoms]. *)
Inductive geometry :=
| Point (coords : list point)
| MultiPoint (geoms : list point)
| GeometryCollection (geoms : list point).

(** [rings[jj]]: the disk of radius [outer] without the disk of radius
    [inner], both centred at the origin. *)
Record ring := { inner : float; outer : float }.

Class Geometry := {
  (** [area_of_interest.is_valid] *)
  is_valid : region -> bool;
  (** [area_of_interest.area] *)
  area : region -> float;
  (** [area_of_interest.intersection(MultiPoint(array_positions))] *)
  intersection : region -> list point -> geometry;
  (** [p.distance(area_of_interest.boundary)] *)
  distance : point -> region -> float;
  (** [rings[jj].area] *)
  ring_area_poly : ring -> float;
  (** [area_of_interest.intersection(translate(rings[jj], xoff, yoff)).area] *)
  ring_intersection_area : region -> ring -> point -> float
}.

(** ** pcf2d *)

Section Pcf2d.

Context {G : Geometry}.

(** [positions_of_interest.geoms] *)
Definition geoms_of (g : geometry) : outcome (list point) :=
  match g with
  | Point _ => Raised (AttributeError "'Point' object has no attribute 'geoms'")
  | MultiPoint ps => Returned ps
  | GeometryCollection ps => Returned ps
  end.

(** Line 140: a Python division of an int by a float. *)
Definition py_div (n : nat) (x : float) : outcome float :=
  if x =? zero then Raised (ZeroDivisionError "float division by zero")
  else Returned (float_of_nat n / x).

(** Lines 143-156: the rings, once built, their exact areas and the areas of
    their polygons. *)
Definition make_rings (bins_distances : list float) : list ring :=
  zip_with Build_ring bins_distances (tail bins_distances).

(** [Point([0,0]).buffer(distance)]: the disk of that radius; shapely refuses
    a radius that is NaN or infinite. *)
Definition not_finite : exn := ValueError "buffer distance must be finite".

Definition buffer (distance : float) : outcome float :=
  if is_finite distance then Returned distance else Raised not_finite.

(** Lines 151-153: one round of the loop that builds the rings. *)
Definition ring_step (bins_distances : list float) (rings : list ring)
    (jj : Z) : outcome (list ring) :=
  let* lo := getitem bins_distances jj in
  let* inner_circle := buffer lo in
  let* hi := getitem bins_distances (jj + 1) in
  let* outer_circle := buffer hi in
  Returned (rings ++ [Build_ring inner_circle outer_circle]).

(** Lines 149-153: the rings, or the refusal of an edge. *)
Definition build_rings (bins_distances : list float) : outcome (list ring) :=
  for_each (ring_step bins_distances)
    (py_range (Z.of_nat (length bins_distances) - 1)) [].

Definition exact_area (r : ring) : float :=
  np_pi * (outer r * outer r - inner r * inner r).

(** Lines 190 and 193: the normalization factor of one bin. *)
Definition correct_bin (area_of_interest : region) (p : point)
    (rings : list ring) (ring_area_approx : list float)
    (row : list float) (jj : Z) : outcome (list float) :=
  let* r := getitem rings jj in
  let* a := getitem ring_area_approx jj in
  setitem row jj (ring_intersection_area area_of_interest r p / a).

(** Lines 186-193: one round of the loop over the points, accurate method. *)
Definition accurate_step (area_of_interest : region) (geoms : list point)
    (bins_distances : list float) (rings : list ring)
    (ring_area_approx : list float)
    (st : list float * list (list float)) (ii : Z)
  : outcome (list float * list (list float)) :=
  let '(dist_to_border, normalisation) := st in
  let* p := getitem geoms ii in
  let* dist_to_border := setitem dist_to_border ii (distance p area_of_interest) in
  let* d := getitem dist_to_border ii in
  let* b0 := getitem bins_distances 0 in
  let* row := getitem normalisation ii in
  let* row :=
    if d <=? b0
    then for_each (correct_bin area_of_interest p rings ring_area_approx)
           (py_range (Z.of_nat (length bins_distances) - 1)) row
    else for_each (correct_bin area_of_interest p rings ring_area_approx)
           (map (fun k => (k - 1)%Z)
              (np_where (map (fun b => d <? b) bins_distances))) row in
  let* normalisation := setitem normalisation ii row in
  Returned (dist_to_border, normalisation).

(** Line 173: one round of the loop over the points, fast method. *)
Definition fast_step (area_of_interest : region) (geoms : list point)
    (dist_to_border : list float) (ii : Z) : outcome (list float) :=
  let* p := getitem geoms ii in
  setitem dist_to_border ii (distance p area_of_interest).

(** What lines 167-193 leave behind for the rest of the call. *)
Record corrected := {
  array_positions : list point;
  nb_part : nat;
  dist_to_border : list float;
  normalisation : list (list float)
}.

(** Lines 167-193. *)
Definition edge_correction (area_of_interest : region) (geoms : list point)
    (array_positions : list point) (bins_distances : list float)
    (rings : list ring) (ring_area_approx : list float)
    (fast_method full_output : bool) : outcome corrected :=
  let nb_part := length array_positions in
  let nbins := (Z.of_nat (length bins_distances) - 1)%Z in
  let* normalisation := np_ones2 nb_part nbins in
  let* dist_to_border := np_zeros (Z.of_nat nb_part) in
  if fast_method then
    let* dist_to_border :=
      for_each (fast_step area_of_interest geoms)
        (py_range (Z.of_nat nb_part)) dist_to_border in
    let* b_last := getitem bins_distances (-1) in
    let far_enough := np_where (map (fun d => b_last <? d) dist_to_border) in
    let* array_positions := take_indices array_positions far_enough in
    let nb_part := length array_positions in
    if full_output then
      let* dist_to_border := take_indices dist_to_border far_enough in
      let* normalisation := np_ones2 nb_part nbins in
      Returned (Build_corrected array_positions nb_part dist_to_border normalisation)
    else
      Returned (Build_corrected array_positions nb_part dist_to_border normalisation)
  else
    let* (dist_to_border, normalisation) :=
      for_each
        (accurate_step area_of_interest geoms bins_distances rings ring_area_approx)
        (py_range (Z.of_nat nb_part)) (dist_to_border, normalisation) in
    Returned (Build_corrected array_positions nb_part dist_to_border normalisation).

(** Lines 202-206: the distances from point [ii] to every point, its own
    replaced by infinity. *)
Definition dist_to_loc (array_positions : list point) (ii : Z)
  : outcome (list float) :=
  let* loc := getitem array_positions ii in
  let '(x_loc, y_loc) := loc in
  let d := map (fun '(x, y) =>
                  sqrt ((x - x_loc) * (x - x_loc) + (y - y_loc) * (y - y_loc)))
             array_positions in
  setitem d ii infinity.

(** Lines 200-209: one round of the loop that bins the distances. *)
Definition histogram_step (array_positions : list point)
    (bins_distances : list float) (ring_area : list float)
    (normalisation : list (list float))
    (acc : list float * list float) (ii : Z)
  : outcome (list float * list float) :=
  let '(g_of_r, g_of_r_normalized) := acc in
  let* d := dist_to_loc array_positions ii in
  let* h := np_histogram d bins_distances in
  let g_of_r := zip_with add g_of_r (map float_of_nat h) in
  let* h := np_histogram d bins_distances in
  let* row := getitem normalisation ii in
  let g_of_r_normalized :=
    zip_with add g_of_r_normalized
      (zip_with div (map float_of_nat h) (zip_with mul ring_area row)) in
  Returned (g_of_r, g_of_r_normalized).

(** What the call returns: [(g(r), r)], or the seven values of the full
    output. *)
Inductive results :=
| Short (g_of_r_normalized radii : list float)
| Full (g_of_r_normalized radii g_of_r : list float)
    (array_positions : list point) (dist_to_border : list float)
    (normalisation : list (list float)) (densite : float).

(** Line 218: the centres of the bins. *)
Definition bin_centres (bins_distances : list float) : list float :=
  zip_with (fun a b => (a + b) / two) (tail bins_distances)
    (removelast bins_distances).

(** Lines 139-242, from the area of interest and the points inside it on.
    [geoms] is [positions_of_interest.geoms]; [array_positions] holds the same
    points (lines 116 and 131-133). *)
Definition pcf2d_core (area_of_interest : region) (geoms : list point)
    (bins_distances : list float) (fast_method full_output : bool)
  : outcome results :=
  let array_positions := geoms in
  let nb_part := length array_positions in
  let* densite := py_div nb_part (area area_of_interest) in
  let nbins := (Z.of_nat (length bins_distances) - 1)%Z in
  let* _ := np_zeros nbins in
  let* _ := np_zeros nbins in
  let* rings := build_rings bins_distances in
  let ring_area_approx := map ring_area_poly rings in
  let ring_area := map exact_area rings in
  let* g_of_r := np_zeros nbins in
  let* g_of_r_normalized := np_zeros nbins in
  let* c := edge_correction area_of_interest geoms array_positions
              bins_distances rings ring_area_approx fast_method full_output in
  let '(Build_corrected array_positions nb_part dist_to_border normalisation) := c in
  let* (g_of_r, g_of_r_normalized) :=
    for_each
      (histogram_step array_positions bins_distances ring_area normalisation)
      (py_range (Z.of_nat nb_part)) (g_of_r, g_of_r_normalized) in
  let g_of_r := map (fun x => x / float_of_nat nb_part) g_of_r in
  let g_of_r_normalized :=
    map (fun x => x / (float_of_nat nb_part * densite)) g_of_r_normalized in
  let radii := bin_centres bins_distances in
  if full_output
  then Returned (Full g_of_r_normalized radii g_of_r array_positions
                   dist_to_border normalisation densite)
  else Returned (Short g_of_r_normalized radii).

Definition not_valid : string :=
  "The list of coordinates your provided for the border is not valid (see help for the definition of valid coord_border).".

(** The call with [show_timing] and [plot] at [False]: what it prints, and
    what it returns ([None] after the message of line 125) or raises.
    [Polygon(shell=..., holes=...)] is taken to build the polygon: a border
    that shapely refuses to build one from is not modelled. *)
Definition pcf2d (array_positions : list point) (bins_distances : list float)
    (coord_border : option (list point))
    (coord_holes : option (list (list point)))
    (fast_method full_output : bool)
  : list string * outcome (option results) :=
  match coord_border with
  | None =>
      let positions_of_interest := MultiPoint array_positions in
      let area_of_interest := convex_hull array_positions in
      ([], let* geoms := geoms_of positions_of_interest in
           let* r := pcf2d_core area_of_interest geoms bins_distances
                       fast_method full_output in
           Returned (Some r))
  | Some border =>
      let area_of_interest := Polygon border coord_holes in
      if negb (is_valid area_of_interest) then ([not_valid], Returned None)
      else
        let positions_of_interest := intersection area_of_interest array_positions in
        ([], let* geoms := geoms_of positions_of_interest in
             let* r := pcf2d_core area_of_interest geoms bins_distances
                         fast_method full_output in
             Returned (Some r))
  end.

(** The first two values of the result. *)
Definition g_and_r (r : results) : list float * list float :=
  match r with
  | Short g radii => (g, radii)
  | Full g radii _ _ _ _ _ => (g, radii)
  end.

End Pcf2d.

(** ** What the loops compute

    The values the specification names, in closed form: the statements about
    the call compare the loops above with them. *)

Section Derived.

Context {G : Geometry}.

Local Close Scope float_scope.

(** The fraction of ring [r], moved to point [p], that lies in the area of
    interest: the area of the intersection over the area of the ring's
    polygon. *)
Definition ratio (area_of_interest : region) (p : point) (r : ring) : float :=
  (ring_intersection_area area_of_interest r p / ring_area_poly r)%float.

(** The normalization factors of a point as the specification words them:
    every bin is corrected when the distance to the border is at most the
    first edge; otherwise the bins whose outer edge is beyond that distance
    are, and the others get 1. *)
Definition factors (area_of_interest : region) (b0 : float) (rings : list ring)
    (p : point) : list float :=
  let d := distance p area_of_interest in
  map (fun r =>
         if (d <=? b0)%float then ratio area_of_interest p r
         else if (d <? outer r)%float then ratio area_of_interest p r
         else one)
      rings.

(** The positions at which a mask holds. *)
Fixpoint where_from (k : nat) (mask : list bool) : list nat :=
  match mask with
  | [] => []
  | b :: mask' => (if b then [k] else []) ++ where_from (S k) mask'
  end.

(** A row after the bins [js] have been corrected, in turn. *)
Definition corrected_at (area_of_interest : region) (p : point)
    (rings : list ring) (js : list nat) (row : list float) : list float :=
  fold_left
    (fun row j =>
       match rings !! j with
       | Some r => <[j := ratio area_of_interest p r]> row
       | None => row
       end)
    js row.

(** Rings of finite radii: the ones [buffer] accepts. *)
Definition rings_finite (rings : list ring) : bool :=
  forallb (fun r => is_finite (inner r) && is_finite (outer r)) rings.

(** Bin edges that never decrease, as the data model has them. *)
Definition nondecreasing (bins_distances : list float) : bool :=
  forallb (fun '(lo, hi) => (lo <=? hi)%float)
    (zip bins_distances (tail bins_distances)).

(** [bins_distances[-1]] *)
Definition last_edge (b0 : float) (rest : list float) : float :=
  default b0 (last (b0 :: rest)).

(** The points the fast method keeps: those farther from the border than the
    last edge. *)
Definition far_enough (area_of_interest : region) (b_last : float)
    (geoms : list point) : list point :=
  List.filter (fun p => (b_last <? distance p area_of_interest)%float) geoms.

(** Lines 162-163 and 200-209: the two histograms, summed over the points. *)
Definition accumulate (positions : list point) (bins_distances : list float)
    (normalisation : list (list float)) : outcome (list float * list float) :=
  let n := length bins_distances - 1 in
  for_each
    (histogram_step positions bins_distances
       (map exact_area (make_rings bins_distances)) normalisation)
    (py_range (Z.of_nat (length positions)))
    (replicate n zero, replicate n zero).

(** The points whose distances are binned. *)
Definition kept (a : region) (b0 : float) (rest : list float)
    (fast_method : bool) (geoms : list point) : list point :=
  if fast_method then far_enough a (last_edge b0 rest) geoms else geoms.

(** The normalization factors the histogram loop reads. *)
Definition factors_used (a : region) (b0 : float) (rest : list float)
    (fast_method full_output : bool) (geoms : list point) : list (list float) :=
  if fast_method
  then replicate
         (length (if full_output then far_enough a (last_edge b0 rest) geoms
                  else geoms))
         (replicate (length rest) one)
  else map (factors a b0 (make_rings (b0 :: rest))) geoms.

(** Lines 215-242. *)
Definition finish (full_output : bool) (bins_distances : list float)
    (positions : list point) (dist_to_border : list float)
    (normalisation : list (list float)) (densite : float)
    (acc : list float * list float) : results :=
  let g_of_r := map (fun x => x / float_of_nat (length positions))%float (fst acc) in
  let g_of_r_normalized :=
    map (fun x => x / (float_of_nat (length positions) * densite))%float (snd acc) in
  if full_output
  then Full g_of_r_normalized (bin_centres bins_distances) g_of_r positions
         dist_to_border normalisation densite
  else Short g_of_r_normalized (bin_centres bins_distances).

(** Lines 115-122: the area of interest. *)
Definition area_of (points : list point) (coord_border : option (list point))
    (coord_holes : option (list (list point))) : region :=
  match coord_border with
  | Some border => Polygon border coord_holes
  | None => convex_hull points
  end.

(** Lines 116 and 129: the points of interest. *)
Definition points_of (points : list point)
    (coord_border : option (list point))
    (coord_holes : option (list (list point))) : geometry :=
  match coord_border with
  | Some border => intersection (Polygon border coord_holes) points
  | None => MultiPoint points
  end.

(** Line 124: a border, when there is one, that is valid. *)
Definition border_valid (coord_border : option (list point))
    (coord_holes : option (list (list point))) : bool :=
  match coord_border with
  | Some border => is_valid (Polygon border coord_holes)
  | None => true
  end.

(** The refusal of [np.histogram]. *)
Definition not_monotonic : exn :=
  ValueError "`bins` must increase monotonically, when an array".

End Derived.

(** ** Shapely on rectangles

    The answers shapely gives when the area of interest is a rectangle with
    sides along the axes, given by its corners in the order
    [[x0,y0],[x0,y1],[x1,y1],[x1,y0]] and without holes, and the points are
    given in increasing order, without repeats. It serves the examples below
    and is no geometry of its own: every other border is reported as not
    valid, as the bow tie [[0,0],[0,1],[1,0],[1,1]] is, and where an answer
    would need the area of a ring that the rectangle cuts, it gives NaN. *)

Module Rectangles.

Record box := { x0 : float; y0 : float; x1 : float; y1 : float }.

Definition box_of (a : region) : option box :=
  match a with
  | Polygon [(ax, ay); (bx, by'); (cx, cy); (dx, dy)] None =>
      if (ax =? bx) && (cx =? dx) && (ay =? dy) && (by' =? cy)
         && (ax <? cx) && (ay <? by')
      then Some {| x0 := ax; y0 := ay; x1 := cx; y1 := by' |}
      else None
  | _ => None
  end.

Definition inside (b : box) (p : point) : bool :=
  (x0 b <=? fst p) && (fst p <=? x1 b) && (y0 b <=? snd p) && (snd p <=? y1 b).

Definition fmin (a b : float) : float := if a <? b then a else b.
Definition fmax (a b : float) : float := if a <? b then b else a.

(** The distance from a point of the rectangle to its four sides. *)
Definition to_sides (b : box) (p : point) : float :=
  fmin (fmin (fst p - x0 b) (x1 b - fst p)) (fmin (snd p - y0 b) (y1 b - snd p)).

Definition sq_dist (p q : point) : float :=
  (fst p - fst q) * (fst p - fst q) + (snd p - snd q) * (snd p - snd q).

(** The square of the distance from a point to the farthest corner. *)
Definition to_far_corner2 (b : box) (p : point) : float :=
  fmax (fmax (sq_dist p (x0 b, y0 b)) (sq_dist p (x0 b, y1 b)))
       (fmax (sq_dist p (x1 b, y1 b)) (sq_dist p (x1 b, y0 b))).

(** [buffer] draws a circle as a polygon of 64 sides: its area is
    [32 sin(pi/32)] times the square of the radius. *)
Definition circle_poly : float := 0x1.917a6bc29b42ep+1.

(** No point, or one, gives a point (an empty one for none); more give a
    multi-part geometry. *)
Definition pack (ps : list point) : geometry :=
  match ps with
  | [] => Point []
  | [p] => Point [p]
  | _ => MultiPoint ps
  end.

#[export] Instance shapely : Geometry := {|
  is_valid a := match box_of a with Some _ => true | None => false end;
  area a :=
    match box_of a with
    | Some b => (x1 b - x0 b) * (y1 b - y0 b)
    | None => nan
    end;
  intersection a ps :=
    match box_of a with
    | Some b => pack (List.filter (inside b) ps)
    | None => Point []
    end;
  distance p a :=
    match box_of a with
    | Some b => if inside b p then to_sides b p else nan
    | None => nan
    end;
  ring_area_poly r := circle_poly * (outer r * outer r - inner r * inner r);
  (* a ring whose inner circle lies well beyond the farthest corner misses the
     rectangle: the intersection is empty *)
  ring_intersection_area a r p :=
    match box_of a with
    | Some b => if (4 * to_far_corner2 b p <=? inner r * inner r) && (0 <? inner r)
                then 0 else nan
    | None => nan
    end
|}.

(** The square of side 6 and two points on its middle line, at distances 2
    and 3 from the border. *)
Definition square6 : list point := [(0, 0); (0, 6); (6, 6); (6, 0)].
Definition two_points : list point := [(2, 3); (3, 3)].

(** The bow tie of the program's documentation. *)
Definition bow_tie : list point := [(0, 0); (0, 1); (1, 0); (1, 1)].

(** The area of interest the program builds from [square6]. *)
Definition the_square : region := Polygon square6 None.

(** Bin edges: one bin between 1 and 2; one bin between 1 and 4, wider than
    the distance from either point to the border; one bin between 20 and 30,
    beyond the square from either point. *)
Definition bins_1_2 : list float := [1; 2].
Definition bins_20_30 : list float := [20; 30].

End Rectangles.

(** ** Floating point facts *)

Local Close Scope float_scope.

Module FloatFacts.

Local Open Scope float_scope.

Lemma SFcompare_antisym (x y : spec_float) (c : comparison) :
  SFcompare x y = Some c -> SFcompare y x = Some (CompOpp c).
Proof.
  destruct x as [sx|sx| |sx mx ex], y as [sy|sy| |sy my ey]; simpl;
    try discriminate;
    try (destruct sx; intros [= <-]; reflexivity);
    try (destruct sy; intros [= <-]; reflexivity);
    try (intros [= <-]; reflexivity).
  - destruct sx, sy; intros [= <-]; reflexivity.
  - destruct sx, sy; intros [= <-]; try reflexivity;
      rewrite (Z.compare_antisym ex ey);
      destruct (ex ?= ey)%Z; simpl; try reflexivity;
      change (Pos.compare_cont Eq my mx)
        with (Pos.compare_cont (CompOpp Eq) my mx);
      rewrite <- (Pos.compare_cont_antisym mx my Eq);
      destruct (Pos.compare_cont Eq mx my); reflexivity.
Qed.

Lemma ltb_leb (x y : float) : (x <? y) = true -> (x <=? y) = true.
Proof.
  rewrite FloatAxioms.ltb_spec, FloatAxioms.leb_spec. unfold SFltb, SFleb.
  destruct (SFcompare _ _) as [[]|]; congruence.
Qed.

Lemma ltb_not_leb (x y : float) : (x <? y) = true -> (y <=? x) = false.
Proof.
  rewrite FloatAxioms.ltb_spec, FloatAxioms.leb_spec. unfold SFltb, SFleb.
  destruct (SFcompare (Prim2SF x) (Prim2SF y)) as [c|] eqn:E; try discriminate.
  rewrite (SFcompare_antisym _ _ _ E).
  destruct c; simpl; congruence.
Qed.

Lemma ltb_asym (x y : float) : (x <? y) = true -> (y <? x) = false.
Proof.
  rewrite !FloatAxioms.ltb_spec. unfold SFltb.
  destruct (SFcompare (Prim2SF x) (Prim2SF y)) as [c|] eqn:E; try discriminate.
  rewrite (SFcompare_antisym _ _ _ E).
  destruct c; simpl; congruence.
Qed.

Lemma leb_false_ltb_false (x y : float) : (x <=? y) = false -> (x <? y) = false.
Proof.
  intros H. destruct (x <? y) eqn:E; [|reflexivity].
  apply ltb_leb in E. congruence.
Qed.

Ltac compare_cases :=
  repeat match goal with
  | H : context [(?a ?= ?b)%Z] |- _ => destruct (Z.compare_spec a b); subst
  | |- context [(?a ?= ?b)%Z] => destruct (Z.compare_spec a b); subst
  | H : context [Pos.compare_cont Eq ?a ?b] |- _ =>
      change (Pos.compare_cont Eq a b) with (Pos.compare a b) in H;
      destruct (Pos.compare_spec a b); subst
  | |- context [Pos.compare_cont Eq ?a ?b] =>
      change (Pos.compare_cont Eq a b) with (Pos.compare a b);
      destruct (Pos.compare_spec a b); subst
  end.

Lemma SFleb_trans (x y z : spec_float) :
  SFleb x y = true -> SFleb y z = true -> SFleb x z = true.
Proof.
  unfold SFleb, SFcompare.
  destruct x as [sx|sx| |sx mx ex], y as [sy|sy| |sy my ey],
    z as [sz|sz| |sz mz ez];
    try destruct sx; try destruct sy; try destruct sz;
    try reflexivity; try discriminate;
    cbn [CompOpp]; intros H1 H2; compare_cases;
    try reflexivity; try discriminate; try lia.
Qed.

Lemma SFleb_ltb_trans (x y z : spec_float) :
  SFleb x y = true -> SFltb y z = true -> SFltb x z = true.
Proof.
  unfold SFleb, SFltb, SFcompare.
  destruct x as [sx|sx| |sx mx ex], y as [sy|sy| |sy my ey],
    z as [sz|sz| |sz mz ez];
    try destruct sx; try destruct sy; try destruct sz;
    try reflexivity; try discriminate;
    cbn [CompOpp]; intros H1 H2; compare_cases;
    try reflexivity; try discriminate; try lia.
Qed.

Lemma leb_trans (x y z : float) :
  (x <=? y) = true -> (y <=? z) = true -> (x <=? z) = true.
Proof. rewrite !FloatAxioms.leb_spec. apply SFleb_trans. Qed.

Lemma leb_ltb_trans (x y z : float) :
  (x <=? y) = true -> (y <? z) = true -> (x <? z) = true.
Proof.
  rewrite FloatAxioms.leb_spec, !FloatAxioms.ltb_spec. apply SFleb_ltb_trans.
Qed.





End FloatFacts.

(** ** Facts about the containers *)

Section Containers.

Context {A : Type}.
Implicit Types (l : list A) (i : nat).

Lemma py_index_nat (n i : nat) : i < n -> py_index n (Z.of_nat i) = Some i.
Proof.
  intros H. unfold py_index.
  replace ((0 <=? Z.of_nat i) && (Z.of_nat i <? Z.of_nat n))%Z with true.
  - rewrite Nat2Z.id. reflexivity.
  - symmetry. apply andb_true_iff. split; [apply Z.leb_le|apply Z.ltb_lt]; lia.
Qed.

Lemma getitem_nat l i x : l !! i = Some x -> getitem l (Z.of_nat i) = Returned x.
Proof.
  intros H. unfold getitem.
  rewrite py_index_nat by (apply lookup_lt_Some in H; exact H).
  rewrite H. reflexivity.
Qed.

Lemma setitem_nat l i x :
  i < length l -> setitem l (Z.of_nat i) x = Returned (<[i := x]> l).
Proof. intros H. unfold setitem. rewrite py_index_nat by exact H. reflexivity. Qed.

End Containers.

(** ** The normalization factors of the accurate method *)

Section Normalization.

Context {G : Geometry}.

Lemma np_where_from_nat (k : nat) (mask : list bool) :
  np_where_from (Z.of_nat k) mask = map Z.of_nat (where_from k mask).
Proof.
  revert k. induction mask as [|b mask IH]; intros k; simpl; [reflexivity|].
  rewrite map_app. replace (Z.of_nat k + 1)%Z with (Z.of_nat (S k)) by lia.
  rewrite IH. destruct b; reflexivity.
Qed.

Lemma where_from_succ (k : nat) (mask : list bool) :
  where_from (S k) mask = map S (where_from k mask).
Proof.
  revert k. induction mask as [|b mask IH]; intros k; simpl; [reflexivity|].
  rewrite map_app, IH. destruct b; reflexivity.
Qed.

Lemma elem_of_where_from (k j : nat) (mask : list bool) :
  j ∈ where_from k mask <-> k <= j /\ mask !! (j - k) = Some true.
Proof.
  revert k. induction mask as [|b mask IH]; intros k; simpl.
  - split; [intros H; inversion H|intros [_ H]; discriminate].
  - rewrite elem_of_app, IH. split.
    + intros [H|[H1 H2]].
      * destruct b; [|inversion H]. apply list_elem_of_singleton in H. subst j.
        split; [lia|]. rewrite Nat.sub_diag. reflexivity.
      * split; [lia|]. replace (j - k) with (S (j - S k)) by lia. exact H2.
    + intros [H1 H2]. destruct (decide (j = k)) as [->|Hne].
      * rewrite Nat.sub_diag in H2. simpl in H2. injection H2 as ->.
        left. apply list_elem_of_singleton. reflexivity.
      * right. split; [lia|].
        replace (j - k) with (S (j - S k)) in H2 by lia. exact H2.
Qed.

(** The bins the second branch corrects: never index -1, the mask being
    false at the first edge. *)
Lemma shifted_where (mask : list bool) :
  map (fun k => (k - 1)%Z) (np_where (false :: mask))
  = map Z.of_nat (where_from 0 mask).
Proof.
  unfold np_where. simpl.
  rewrite (np_where_from_nat 1), where_from_succ, !map_map.
  apply map_ext. intros j. lia.
Qed.

Lemma where_from_bound (k j : nat) (mask : list bool) :
  j ∈ where_from k mask -> j < k + length mask.
Proof.
  intros [H1 H2]%elem_of_where_from. apply lookup_lt_Some in H2. lia.
Qed.

Lemma corrected_at_length a p rings js row :
  length (corrected_at a p rings js row) = length row.
Proof.
  unfold corrected_at. revert row.
  induction js as [|j js IH]; intros row; simpl; [reflexivity|].
  rewrite IH. destruct (rings !! j); [apply length_insert|reflexivity].
Qed.

Lemma corrected_at_lookup a p rings js row (j : nat) :
  length row = length rings ->
  corrected_at a p rings js row !! j =
    if decide (j ∈ js) then ratio a p <$> rings !! j else row !! j.
Proof.
  unfold corrected_at. revert row.
  induction js as [|k js IH]; intros row Hlen; cbn [fold_left].
  - destruct (decide (j ∈ [])) as [H|H]; [inversion H|reflexivity].
  - assert (Hstep : length (match rings !! k with
                            | Some r => <[k := ratio a p r]> row
                            | None => row
                            end) = length rings).
    { destruct (rings !! k); [rewrite length_insert|]; exact Hlen. }
    rewrite (IH _ Hstep).
    destruct (decide (j ∈ js)) as [Hin|Hnin].
    + destruct (decide (j ∈ k :: js)) as [_|Hn]; [reflexivity|].
      exfalso. apply Hn. right. exact Hin.
    + destruct (decide (j ∈ k :: js)) as [Hj|Hn].
      * apply elem_of_cons in Hj as [->|Hj]; [|contradiction].
        destruct (rings !! k) as [r|] eqn:Hk; simpl.
        -- apply list_lookup_insert_eq. rewrite Hlen.
           apply lookup_lt_Some in Hk. exact Hk.
        -- apply lookup_ge_None in Hk. apply lookup_ge_None. lia.
      * destruct (rings !! k) as [r|] eqn:Hk; [|reflexivity].
        apply list_lookup_insert_ne. intros ->. apply Hn. left.
Qed.

(** The loop over the bins to correct, for indices in range. *)
Lemma for_each_correct_bin a p rings (js : list nat) (row : list float) :
  length row = length rings ->
  Forall (fun j => j < length rings) js ->
  for_each (correct_bin a p rings (map ring_area_poly rings))
    (map Z.of_nat js) row
  = Returned (corrected_at a p rings js row).
Proof.
  unfold corrected_at. revert row.
  induction js as [|j js IH]; intros row Hlen Hjs; simpl; [reflexivity|].
  inversion Hjs as [|? ? Hj Hjs']; subst.
  destruct (lookup_lt_is_Some_2 rings j Hj) as [r Hr].
  unfold correct_bin at 1.
  rewrite (getitem_nat _ _ _ Hr). simpl.
  rewrite (getitem_nat (map ring_area_poly rings) j (ring_area_poly r))
    by (rewrite list_lookup_fmap, Hr; reflexivity).
  simpl. rewrite setitem_nat by lia. simpl. rewrite Hr.
  apply IH; [rewrite length_insert; exact Hlen|exact Hjs'].
Qed.

Lemma make_rings_length (b0 : float) (rest : list float) :
  length (make_rings (b0 :: rest)) = length rest.
Proof. unfold make_rings. rewrite length_zip_with. cbn [tail length]. lia. Qed.

Lemma make_rings_outer (b0 : float) (rest : list float) (j : nat) :
  outer <$> make_rings (b0 :: rest) !! j = rest !! j.
Proof.
  unfold make_rings. cbn [tail]. rewrite lookup_zip_with.
  destruct ((b0 :: rest) !! j) as [x|] eqn:Hx; simpl.
  - destruct (rest !! j); reflexivity.
  - apply lookup_ge_None in Hx. simpl in Hx.
    symmetry. apply lookup_ge_None. lia.
Qed.

Lemma py_range_nat (n : nat) : py_range (Z.of_nat n) = map Z.of_nat (seq 0 n).
Proof. unfold py_range. rewrite Nat2Z.id. reflexivity. Qed.

(** Lines 188-193 for one point: both branches leave the factors the
    specification describes. *)
Lemma accurate_row a (b0 : float) (rest : list float) (p : point) :
  let bins := b0 :: rest in
  let rings := make_rings bins in
  let d := distance p a in
  (if (d <=? b0)%float
   then for_each (correct_bin a p rings (map ring_area_poly rings))
          (py_range (Z.of_nat (length bins) - 1))
          (replicate (length rings) one)
   else for_each (correct_bin a p rings (map ring_area_poly rings))
          (map (fun k => (k - 1)%Z)
             (np_where (map (fun b => (d <? b)%float) bins)))
          (replicate (length rings) one))
  = Returned (factors a b0 rings p).
Proof.
  intros bins rings d.
  assert (Hlen : length (replicate (length rings) one) = length rings)
    by apply length_replicate.
  destruct (d <=? b0)%float eqn:Hd.
  - replace (Z.of_nat (length bins) - 1)%Z with (Z.of_nat (length rings))
      by (unfold rings, bins; rewrite make_rings_length; simpl; lia).
    rewrite py_range_nat, for_each_correct_bin; [f_equal| exact Hlen |].
    + apply list_eq. intros j. rewrite corrected_at_lookup by exact Hlen.
      unfold factors. fold d. rewrite list_lookup_fmap, Hd.
      destruct (decide (j ∈ seq 0 (length rings))) as [_|Hn]; [reflexivity|].
      rewrite elem_of_seq in Hn.
      rewrite (proj2 (lookup_ge_None rings j)) by lia.
      apply lookup_ge_None. rewrite Hlen. lia.
    + apply Forall_forall. intros j Hj. apply elem_of_seq in Hj. lia.
  - unfold bins. cbn [map].
    rewrite (FloatFacts.leb_false_ltb_false _ _ Hd), shifted_where.
    rewrite for_each_correct_bin; [f_equal| exact Hlen |].
    + apply list_eq. intros j. rewrite corrected_at_lookup by exact Hlen.
      unfold factors. fold d. rewrite list_lookup_fmap, Hd.
      pose proof (make_rings_outer b0 rest j) as Ho. fold bins rings in Ho.
      destruct (decide (j ∈ where_from 0 (map (fun b => (d <? b)%float) rest)))
        as [Hin|Hn].
      * apply elem_of_where_from in Hin as [_ Hin].
        rewrite Nat.sub_0_r, list_lookup_fmap, <- Ho in Hin.
        destruct (rings !! j) as [r|]; [|discriminate]. simpl in *.
        injection Hin as ->. reflexivity.
      * rewrite elem_of_where_from, Nat.sub_0_r, list_lookup_fmap, <- Ho in Hn.
        destruct (rings !! j) as [r|] eqn:Hr; simpl in *.
        -- destruct (d <? outer r)%float.
           ++ exfalso. apply Hn. split; [lia|reflexivity].
           ++ rewrite lookup_replicate_2; [reflexivity|].
              apply lookup_lt_Some in Hr. exact Hr.
        -- apply lookup_ge_None. apply lookup_ge_None in Hr. rewrite Hlen. lia.
    + apply Forall_forall. intros j Hj. apply where_from_bound in Hj.
      rewrite length_map in Hj. unfold rings, bins.
      rewrite make_rings_length. lia.
Qed.

Lemma insert_middle {A} (l1 l2 : list A) (x y : A) (n : nat) :
  length l1 = n -> <[n := y]> (l1 ++ x :: l2) = l1 ++ y :: l2.
Proof.
  intros <-. rewrite insert_app_r_alt by lia.
  rewrite Nat.sub_diag. reflexivity.
Qed.

(** Lines 186-193 for the point after [pre]. *)
Lemma accurate_step_at a (b0 : float) (rest : list float)
    (pre suf : list point) (p : point)
    (dpre dsuf : list float) (npre nsuf : list (list float)) (x : float) :
  let bins := b0 :: rest in
  let rings := make_rings bins in
  length dpre = length pre -> length npre = length pre ->
  accurate_step a (pre ++ p :: suf) bins rings (map ring_area_poly rings)
    (dpre ++ x :: dsuf, npre ++ replicate (length rings) one :: nsuf)
    (Z.of_nat (length pre))
  = Returned (dpre ++ distance p a :: dsuf,
              npre ++ factors a b0 rings p :: nsuf).
Proof.
  intros bins rings Hd Hn.
  pose proof (accurate_row a b0 rest p) as Hrow. cbn zeta in Hrow.
  subst bins rings. unfold accurate_step.
  rewrite (getitem_nat _ _ p) by (apply list_lookup_middle; reflexivity).
  cbn [bind].
  rewrite setitem_nat by (rewrite length_app; simpl; lia).
  cbn [bind]. rewrite (insert_middle _ _ _ _ _ Hd).
  rewrite (getitem_nat _ _ (distance p a))
    by (apply list_lookup_middle; symmetry; exact Hd).
  cbn [bind]. change (getitem (b0 :: rest) 0) with (Returned b0). cbn [bind].
  rewrite (getitem_nat _ _ (replicate (length (make_rings (b0 :: rest))) one))
    by (apply list_lookup_middle; symmetry; exact Hn).
  cbn [bind]. rewrite Hrow. cbn [bind].
  rewrite setitem_nat by (rewrite length_app; simpl; lia).
  cbn [bind]. rewrite (insert_middle _ _ _ _ _ Hn). reflexivity.
Qed.

(** Lines 185-193: the loop over the points, from the point after [pre] on. *)
Lemma accurate_loop a (b0 : float) (rest : list float) (suf pre : list point) :
  let bins := b0 :: rest in
  let rings := make_rings bins in
  let geoms := pre ++ suf in
  for_each (accurate_step a geoms bins rings (map ring_area_poly rings))
    (map Z.of_nat (seq (length pre) (length suf)))
    (map (fun p => distance p a) pre ++ replicate (length suf) zero,
     map (factors a b0 rings) pre
       ++ replicate (length suf) (replicate (length rings) one))
  = Returned (map (fun p => distance p a) geoms,
              map (factors a b0 rings) geoms).
Proof.
  revert pre. induction suf as [|p suf IH]; intros pre bins rings geoms.
  - unfold geoms. simpl. rewrite !app_nil_r. reflexivity.
  - cbn [length seq map for_each replicate].
    unfold geoms.
    rewrite (accurate_step_at a b0 rest pre suf p) by apply length_map.
    cbn [bind].
    specialize (IH (pre ++ [p])). cbn zeta in IH.
    rewrite length_app, !map_app in IH. cbn [length map] in IH.
    rewrite Nat.add_1_r, <- !app_assoc in IH. cbn [app] in IH.
    subst bins rings. rewrite !map_app. cbn [map]. exact IH.
Qed.

End Normalization.

(** ** The fast method *)

Section Exclusion.

Context {G : Geometry}.

Lemma getitem_last (b0 : float) (rest : list float) :
  getitem (b0 :: rest) (-1) = Returned (last_edge b0 rest).
Proof.
  unfold getitem, py_index, last_edge.
  replace ((0 <=? -1) && (-1 <? Z.of_nat (length (b0 :: rest))))%Z with false
    by reflexivity.
  replace ((- Z.of_nat (length (b0 :: rest)) <=? -1) && (-1 <? 0))%Z with true
    by (symmetry; apply andb_true_iff; split;
        [apply Z.leb_le; simpl; lia|reflexivity]).
  replace (Z.to_nat (Z.of_nat (length (b0 :: rest)) + -1)) with (length rest)
    by (simpl; lia).
  rewrite last_lookup. cbn [length Init.Nat.pred].
  destruct ((b0 :: rest) !! length rest) as [x|] eqn:Hx; [reflexivity|].
  apply lookup_ge_None in Hx. simpl in Hx. lia.
Qed.

(** Line 172-173: the loop that measures the distances. *)
Lemma fast_loop a (suf pre : list point) :
  for_each (fast_step a (pre ++ suf))
    (map Z.of_nat (seq (length pre) (length suf)))
    (map (fun p => distance p a) pre ++ replicate (length suf) zero)
  = Returned (map (fun p => distance p a) (pre ++ suf)).
Proof.
  revert pre. induction suf as [|p suf IH]; intros pre.
  - simpl. rewrite !app_nil_r. reflexivity.
  - cbn [length seq map for_each replicate]. unfold fast_step at 1.
    rewrite (getitem_nat _ _ p) by (apply list_lookup_middle; reflexivity).
    cbn [bind].
    rewrite setitem_nat by (rewrite length_app, length_map; simpl; lia).
    cbn [bind]. rewrite insert_middle by apply length_map.
    specialize (IH (pre ++ [p])).
    rewrite length_app, !map_app in IH. cbn [length map] in IH.
    rewrite Nat.add_1_r, <- !app_assoc in IH. cbn [app] in IH.
    rewrite !map_app. cbn [map]. exact IH.
Qed.

(** [a[np.where(mask)[0]]] keeps the entries at which the mask holds. *)
Lemma take_where {A} (f : A -> bool) (suf pre : list A) :
  take_indices (pre ++ suf) (np_where_from (Z.of_nat (length pre)) (map f suf))
  = Returned (List.filter f suf).
Proof.
  unfold take_indices. revert pre.
  induction suf as [|x suf IH]; intros pre; [reflexivity|].
  cbn [map np_where_from List.filter].
  specialize (IH (pre ++ [x])).
  rewrite length_app, <- app_assoc in IH. cbn [length app] in IH.
  replace (Z.of_nat (length pre) + 1)%Z with (Z.of_nat (length pre + 1)) by lia.
  destruct (f x); cbn [app map_each].
  - rewrite (getitem_nat _ _ x) by (apply list_lookup_middle; reflexivity).
    cbn [bind]. rewrite IH. reflexivity.
  - exact IH.
Qed.

Lemma filter_map_comm {A B} (f : A -> B) (g : B -> bool) (l : list A) :
  List.filter g (map f l) = map f (List.filter (fun x => g (f x)) l).
Proof.
  induction l as [|x l IH]; [reflexivity|]. simpl.
  destruct (g (f x)); simpl; rewrite IH; reflexivity.
Qed.

(** Lines 167-181: what the fast method leaves behind. *)
Lemma fast_correction a (geoms : list point) (b0 : float) (rest : list float)
    (rings : list ring) (approx : list float) (full_output : bool) :
  let kept := far_enough a (last_edge b0 rest) geoms in
  edge_correction a geoms geoms (b0 :: rest) rings approx true full_output
  = Returned
      {| array_positions := kept;
         nb_part := length kept;
         dist_to_border :=
           map (fun p => distance p a) (if full_output then kept else geoms);
         normalisation :=
           replicate (length (if full_output then kept else geoms))
             (replicate (length rest) one) |}.
Proof.
  intros kept. unfold edge_correction, np_ones2, np_ones, np_zeros, np_full.
  replace (Z.of_nat (length (b0 :: rest)) - 1)%Z with (Z.of_nat (length rest))
    by (simpl; lia).
  rewrite !(proj2 (Z.ltb_ge _ 0)) by lia. rewrite !Nat2Z.id. cbn [bind].
  rewrite py_range_nat.
  pose proof (fast_loop a geoms []) as Hloop. cbn [app length map] in Hloop.
  rewrite Hloop. cbn [bind].
  rewrite getitem_last. cbn [bind].
  unfold np_where.
  pose proof (take_where (fun d => (last_edge b0 rest <? d)%float)
                (map (fun p => distance p a) geoms) []) as Hd.
  cbn [app length] in Hd.
  pose proof (take_where (fun p => (last_edge b0 rest <? distance p a)%float)
                geoms []) as Hp.
  cbn [app length] in Hp. rewrite <- (map_map (fun p => distance p a)
                (fun d => (last_edge b0 rest <? d)%float)) in Hp.
  change (Z.of_nat 0) with 0%Z in Hd, Hp.
  rewrite Hp. cbn [bind]. fold (far_enough a (last_edge b0 rest) geoms). fold kept.
  destruct full_output; [|reflexivity].
  rewrite Hd. cbn [bind]. rewrite filter_map_comm. reflexivity.
Qed.

End Exclusion.

(** ** The edge correction, method by method *)

Section Correction.

Context {G : Geometry}.

(** Lines 167-193, accurate method. *)
Lemma accurate_correction a (geoms : list point) (b0 : float)
    (rest : list float) (full_output : bool) :
  let rings := make_rings (b0 :: rest) in
  edge_correction a geoms geoms (b0 :: rest) rings (map ring_area_poly rings)
    false full_output
  = Returned
      {| array_positions := geoms;
         nb_part := length geoms;
         dist_to_border := map (fun p => distance p a) geoms;
         normalisation := map (factors a b0 rings) geoms |}.
Proof.
  intros rings. unfold edge_correction, np_ones2, np_ones, np_zeros, np_full.
  replace (Z.of_nat (length (b0 :: rest)) - 1)%Z with (Z.of_nat (length rings))
    by (unfold rings; rewrite make_rings_length; simpl; lia).
  rewrite !(proj2 (Z.ltb_ge _ 0)) by lia. rewrite !Nat2Z.id. cbn [bind].
  rewrite py_range_nat.
  pose proof (accurate_loop a b0 rest geoms []) as Hloop.
  cbn [app length map] in Hloop. fold rings in Hloop.
  rewrite Hloop. reflexivity.
Qed.

(** C1. In the accurate method the normalization factors of every retained
    point are the ones the specification describes: with [d] the distance of
    the point to the border, every bin is given the area of the intersection
    of the area of interest with the ring moved to the point, over the area of
    the ring's polygon, when [d <= bins[0]]; otherwise the bins [j] with
    [bins[j+1] > d] are given that value and the other bins are left at 1. *)
Theorem accurate_normalization a (geoms : list point) (b0 : float)
    (rest : list float) (full_output : bool) :
  let bins_distances := b0 :: rest in
  let rings := make_rings bins_distances in
  exists c,
    edge_correction a geoms geoms bins_distances rings
      (map ring_area_poly rings) false full_output = Returned c
    /\ array_positions c = geoms
    /\ normalisation c =
         map (fun p =>
                let d := distance p a in
                map (fun r =>
                       if (d <=? b0)%float then ratio a p r
                       else if (d <? outer r)%float then ratio a p r
                       else one)
                    rings)
             geoms.
Proof.
  intros bins_distances rings. eexists. split.
  - apply accurate_correction.
  - split; reflexivity.
Qed.

(** C3. In the fast method the points kept are those farther from the border
    than the last edge, so no point at a distance of at most [bins[-1]] is
    left when the distances are binned; and the normalization factors of the
    points kept are 1 for every bin. *)
Theorem fast_exclusion a (geoms : list point) (b0 : float) (rest : list float)
    (rings : list ring) (approx : list float) (full_output : bool) :
  let b_last := last_edge b0 rest in
  exists c,
    edge_correction a geoms geoms (b0 :: rest) rings approx true full_output
      = Returned c
    /\ array_positions c =
         List.filter (fun p => (b_last <? distance p a)%float) geoms
    /\ nb_part c = length (array_positions c)
    /\ Forall (fun p => (distance p a <=? b_last)%float = false)
         (array_positions c)
    /\ nb_part c <= length (normalisation c)
    /\ Forall (fun row => row = replicate (length rest) one) (normalisation c).
Proof.
  intros b_last. eexists. split; [apply fast_correction|].
  cbn [array_positions nb_part normalisation]. fold b_last.
  split; [reflexivity|]. split; [reflexivity|]. split; [|split].
  - apply Forall_forall. intros p Hp. apply list_elem_of_In in Hp.
    apply filter_In in Hp as [_ Hp]. apply FloatFacts.ltb_not_leb. exact Hp.
  - rewrite length_replicate. destruct full_output; [lia|].
    unfold far_enough. clear. induction geoms as [|p l IH]; simpl; [lia|].
    destruct (b_last <? distance p a)%float; simpl; lia.
  - apply Forall_forall. intros row Hrow.
    apply elem_of_replicate in Hrow as [-> _]. reflexivity.
Qed.

End Correction.

(** ** The rings *)

Section Rings.

Lemma make_rings_lookup (bins : list float) (k : nat) (lo hi : float) :
  bins !! k = Some lo -> bins !! S k = Some hi ->
  make_rings bins !! k = Some (Build_ring lo hi).
Proof.
  intros Hlo Hhi. unfold make_rings.
  rewrite lookup_zip_with, Hlo, lookup_tail, Hhi. reflexivity.
Qed.

Lemma make_rings_edges (bins : list float) (k : nat) (r : ring) :
  make_rings bins !! k = Some r ->
  bins !! k = Some (inner r) /\ bins !! S k = Some (outer r).
Proof.
  unfold make_rings. rewrite lookup_zip_with, lookup_tail.
  destruct (bins !! k) as [lo|]; [|discriminate]. cbn [mbind option_bind].
  destruct (bins !! S k) as [hi|]; [|discriminate]. cbn [mbind option_bind].
  intros [= <-]. split; reflexivity.
Qed.

(** One round adds the ring of the two edges, or stops at an edge that is not
    finite. *)
Lemma ring_step_at (bins : list float) (rings : list ring) (k : nat)
    (r : ring) :
  make_rings bins !! k = Some r ->
  ring_step bins rings (Z.of_nat k)
  = if is_finite (inner r) && is_finite (outer r)
    then Returned (rings ++ [r]) else Raised not_finite.
Proof.
  intros Hr. apply make_rings_edges in Hr as [Hlo Hhi]. unfold ring_step.
  rewrite (getitem_nat _ _ _ Hlo). cbn [bind]. unfold buffer.
  destruct (is_finite (inner r)); [|reflexivity]. cbn [bind andb].
  replace (Z.of_nat k + 1)%Z with (Z.of_nat (S k)) by lia.
  rewrite (getitem_nat _ _ _ Hhi). cbn [bind].
  destruct (is_finite (outer r)); [|reflexivity]. cbn [bind].
  destruct r; reflexivity.
Qed.

Lemma ring_rounds (bins : list float) (m k : nat) :
  k + m <= length (make_rings bins) ->
  for_each (ring_step bins) (map Z.of_nat (seq k m)) (take k (make_rings bins))
  = if rings_finite (take m (drop k (make_rings bins)))
    then Returned (take (k + m) (make_rings bins))
    else Raised not_finite.
Proof.
  revert k. induction m as [|m IH]; intros k Hk.
  - cbn [seq map for_each take rings_finite forallb]. rewrite Nat.add_0_r.
    reflexivity.
  - cbn [seq map for_each].
    destruct (lookup_lt_is_Some_2 (make_rings bins) k) as [r Hr]; [lia|].
    rewrite (ring_step_at bins _ k r Hr).
    rewrite (drop_S _ _ _ Hr). cbn [take rings_finite forallb].
    destruct (is_finite (inner r) && is_finite (outer r)); [|reflexivity].
    cbn [bind andb]. rewrite <- (take_S_r _ _ _ Hr).
    rewrite (IH (S k)) by lia.
    replace (S k + m) with (k + S m) by lia. reflexivity.
Qed.

(** Lines 149-153: the rings are built when their radii are all finite, and
    refused otherwise. *)
Lemma build_rings_spec (bins : list float) :
  build_rings bins
  = if rings_finite (make_rings bins) then Returned (make_rings bins)
    else Raised not_finite.
Proof.
  unfold build_rings.
  assert (Hlen : Z.to_nat (Z.of_nat (length bins) - 1)
                 = length (make_rings bins)).
  { unfold make_rings. rewrite length_zip_with. destruct bins as [|b0 rest].
    - reflexivity.
    - cbn [tail length]. lia. }
  unfold py_range. rewrite Hlen.
  pose proof (ring_rounds bins (length (make_rings bins)) 0) as H.
  specialize (H (Nat.le_refl _)).
  cbn [firstn skipn Nat.add] in H. rewrite !firstn_all in H. exact H.
Qed.

(** Edges that are all finite make rings of finite radii. *)
Lemma finite_edges_finite_rings (bins : list float) :
  forallb is_finite bins = true -> rings_finite (make_rings bins) = true.
Proof.
  intros H. rewrite forallb_forall in H. apply forallb_forall. intros r Hr.
  apply list_elem_of_In, list_elem_of_lookup in Hr as [k Hk].
  apply make_rings_edges in Hk as [Hlo Hhi].
  apply andb_true_iff. split; apply H, list_elem_of_In, list_elem_of_lookup.
  - exists k. exact Hlo.
  - exists (S k). exact Hhi.
Qed.

End Rings.

(** ** The call, from the area of interest on *)

Section Pipeline.

Context {G : Geometry}.

(** The call with the loops of the edge correction replaced by what they
    compute. *)
Lemma core_pipeline a (geoms : list point) (b0 : float) (rest : list float)
    (fast_method full_output : bool) :
  let bins := b0 :: rest in
  let positions := kept a b0 rest fast_method geoms in
  let norm := factors_used a b0 rest fast_method full_output geoms in
  pcf2d_core a geoms bins fast_method full_output =
    let* densite := py_div (length geoms) (area a) in
    if rings_finite (make_rings bins)
    then
      let* acc := accumulate positions bins norm in
      Returned
        (finish full_output bins positions
           (map (fun p => distance p a)
              (if fast_method && negb full_output then geoms else positions))
           norm densite acc)
    else Raised not_finite.
Proof.
  intros bins positions norm. unfold pcf2d_core.
  destruct (py_div (length geoms) (area a)) as [densite|e]; [|reflexivity].
  cbn [bind]. unfold np_zeros, np_full.
  replace (Z.of_nat (length bins) - 1)%Z with (Z.of_nat (length rest))
    by (unfold bins; simpl; lia).
  rewrite !(proj2 (Z.ltb_ge _ 0)) by lia. rewrite !Nat2Z.id. cbn [bind].
  rewrite build_rings_spec.
  destruct (rings_finite (make_rings bins)); [|reflexivity]. cbn [bind].
  unfold accumulate, finish.
  replace (length bins - 1) with (length rest) by (unfold bins; simpl; lia).
  destruct fast_method.
  - unfold bins at 1. rewrite fast_correction. cbn [bind].
    unfold positions, norm, kept, factors_used.
    destruct full_output; cbn [andb negb];
      destruct (for_each _ _ _) as [[g gn]|e]; reflexivity.
  - unfold bins at 1 2 3.
    pose proof (accurate_correction a geoms b0 rest full_output) as Hc.
    cbn zeta in Hc. rewrite Hc. cbn [bind].
    unfold positions, norm, kept, factors_used. cbn [andb].
    destruct (for_each _ _ _) as [[g gn]|e]; destruct full_output; reflexivity.
Qed.

(** The distances are binned (lines 200-209) only once the rings are built:
    a call whose rings are refused raises. *)
Lemma no_binning_without_rings a (geoms : list point) (bins : list float)
    (fast_method full_output : bool) (e : exn) :
  build_rings bins = Raised e ->
  exists e', pcf2d_core a geoms bins fast_method full_output = Raised e'.
Proof.
  intros H. destruct bins as [|b0 rest]; [discriminate H|].
  rewrite build_rings_spec in H. rewrite core_pipeline. cbn zeta.
  destruct (py_div (length geoms) (area a)) as [densite|e0];
    [|eexists; reflexivity].
  cbn [bind].
  destruct (rings_finite (make_rings (b0 :: rest))); [discriminate H|].
  eexists. reflexivity.
Qed.

End Pipeline.

(** ** The density and the final division *)

Section Density.

Context {G : Geometry}.

(** C4. The estimated density is the number of points in the area of
    interest over its area, fixed before the fast method excludes any point;
    the final division of the normalized histogram is by the number of points
    left after the exclusion, times that density. *)
Theorem density_before_exclusion a (geoms : list point) (b0 : float)
    (rest : list float) (fast_method full_output : bool) (res : results) :
  pcf2d_core a geoms (b0 :: rest) fast_method full_output = Returned res ->
  let densite := (float_of_nat (length geoms) / area a)%float in
  let positions :=
    if fast_method
    then List.filter (fun p => (last_edge b0 rest <? distance p a)%float) geoms
    else geoms in
  exists raw normalized,
    accumulate positions (b0 :: rest)
      (factors_used a b0 rest fast_method full_output geoms)
      = Returned (raw, normalized)
    /\ fst (g_and_r res) =
         map (fun h => h / (float_of_nat (length positions) * densite))%float
           normalized
    /\ (if full_output
        then exists g r pdf dist norm,
               res = Full g r pdf positions dist norm densite
        else True).
Proof.
  intros H densite positions. rewrite core_pipeline in H. cbn zeta in H.
  unfold py_div in H. destruct (area a =? zero)%float; [discriminate|].
  cbn [bind] in H. fold densite in H.
  destruct (rings_finite _); [|discriminate].
  change (kept a b0 rest fast_method geoms) with positions in H.
  destruct (accumulate positions _ _) as [[raw normalized]|e]; [|discriminate].
  cbn [bind] in H. injection H as <-. exists raw, normalized.
  split; [reflexivity|]. unfold finish. cbn [fst snd].
  destruct full_output; cbn [g_and_r fst]; (split; [reflexivity|]).
  - do 5 eexists. reflexivity.
  - exact I.
Qed.

End Density.

Lemma density_before_exclusion_witness :
  exists res,
    pcf2d_core (G := Rectangles.shapely) Rectangles.the_square
      Rectangles.two_points Rectangles.bins_1_2 true true = Returned res
    /\ exists raw normalized,
         accumulate [(3, 3)%float] Rectangles.bins_1_2 [[1%float]]
           = Returned (raw, normalized)
         /\ fst (g_and_r res) =
              map (fun h => h / (float_of_nat 1 * (float_of_nat 2 / 36)))%float
                normalized
         /\ exists g r pdf dist norm,
              res = Full g r pdf [(3, 3)%float] dist norm
                      (float_of_nat 2 / 36)%float.
Proof.
  eexists. split; [vm_compute; reflexivity|].
  apply (density_before_exclusion (G := Rectangles.shapely)
           Rectangles.the_square Rectangles.two_points 1%float [2%float]
           true true).
  vm_compute. reflexivity.
Defined.

(** ** The two methods on points far from the border *)

Section Methods.

Context {G : Geometry}.

Lemma last_edge_In (b0 : float) (rest : list float) :
  In (last_edge b0 rest) (b0 :: rest).
Proof.
  unfold last_edge. destruct (last (b0 :: rest)) as [x|] eqn:Hx; cbn [default].
  - apply last_Some in Hx as [l' Hx]. rewrite Hx.
    apply in_or_app. right. left. reflexivity.
  - left. reflexivity.
Qed.

Lemma filter_all {A} (f : A -> bool) (l : list A) :
  (forall x, In x l -> f x = true) -> List.filter f l = l.
Proof.
  induction l as [|x l IH]; intros H; [reflexivity|]. simpl.
  rewrite (H x) by (left; reflexivity).
  rewrite IH; [reflexivity|]. intros y Hy. apply H. right. exact Hy.
Qed.

Lemma make_rings_outer_In (b0 : float) (rest : list float) (r : ring) :
  In r (make_rings (b0 :: rest)) -> In (outer r) rest.
Proof.
  intros Hr. apply list_elem_of_In, list_elem_of_lookup in Hr as [j Hj].
  pose proof (make_rings_outer b0 rest j) as Ho. rewrite Hj in Ho. simpl in Ho.
  apply list_elem_of_In, list_elem_of_lookup. exists j. symmetry. exact Ho.
Qed.

(** A point farther from the border than every edge needs no correction. *)
Lemma factors_far a (b0 : float) (rest : list float) (p : point) :
  (forall e, In e (b0 :: rest) -> (e <? distance p a)%float = true) ->
  factors a b0 (make_rings (b0 :: rest)) p = replicate (length rest) one.
Proof.
  intros H. unfold factors.
  rewrite (FloatFacts.ltb_not_leb _ _ (H b0 (or_introl eq_refl))).
  rewrite <- (make_rings_length b0 rest).
  assert (Hr : forall r, In r (make_rings (b0 :: rest)) ->
                 (distance p a <? outer r)%float = false).
  { intros r Hr. apply FloatFacts.ltb_asym, H. right.
    apply (make_rings_outer_In b0). exact Hr. }
  induction (make_rings (b0 :: rest)) as [|r rings IH]; [reflexivity|].
  simpl. rewrite (Hr r) by (left; reflexivity). f_equal.
  apply IH. intros r' Hr'. apply Hr. right. exact Hr'.
Qed.

Lemma map_constant {A B} (f : A -> B) (y : B) (l : list A) :
  (forall x, In x l -> f x = y) -> map f l = replicate (length l) y.
Proof.
  induction l as [|x l IH]; intros H; [reflexivity|]. simpl.
  rewrite (H x) by (left; reflexivity). f_equal.
  apply IH. intros x' Hx'. apply H. right. exact Hx'.
Qed.

(** When every retained point is farther from the border than every bin
    edge, the two methods end the same way. *)
Lemma beyond_every_edge a (geoms : list point) (bins_distances : list float)
    (full_output : bool) :
  (forall p e, In p geoms -> In e bins_distances ->
               (e <? distance p a)%float = true) ->
  pcf2d_core a geoms bins_distances true full_output
  = pcf2d_core a geoms bins_distances false full_output.
Proof.
  intros H. destruct bins_distances as [|b0 rest].
  - unfold pcf2d_core. destruct (py_div _ _); reflexivity.
  - rewrite !core_pipeline. cbn zeta.
    assert (Hk : far_enough a (last_edge b0 rest) geoms = geoms).
    { apply filter_all. intros p Hp. apply H; [exact Hp|apply last_edge_In]. }
    unfold kept, factors_used. rewrite Hk.
    replace (map (factors a b0 (make_rings (b0 :: rest))) geoms)
      with (replicate (length geoms) (replicate (length rest) one)).
    + destruct full_output; reflexivity.
    + symmetry. apply map_constant. intros p Hp. apply factors_far.
      intros e He. apply H; assumption.
Qed.

Lemma last_edge_cons (b0 b1 : float) (rest : list float) :
  last_edge b0 (b1 :: rest) = last_edge b1 rest.
Proof.
  unfold last_edge. rewrite last_cons_cons.
  destruct (last (b1 :: rest)) as [x|] eqn:Hx; [reflexivity|].
  apply last_None in Hx. discriminate Hx.
Qed.

(** In edges that never decrease, every edge is the last one or below it. *)
Lemma below_last_edge (rest : list float) (b0 e : float) :
  nondecreasing (b0 :: rest) = true -> In e (b0 :: rest) ->
  e = last_edge b0 rest \/ (e <=? last_edge b0 rest)%float = true.
Proof.
  revert b0 e. induction rest as [|b1 rest IH]; intros b0 e Hs He.
  - left. destruct He as [<-|[]]. reflexivity.
  - rewrite last_edge_cons. unfold nondecreasing in Hs. cbn [tail zip_with forallb] in Hs.
    apply andb_true_iff in Hs as [H01 Hs].
    destruct He as [<-|He]; [|apply IH; assumption].
    right. destruct (IH b1 b1 Hs (or_introl eq_refl)) as [<-|Hb1]; [exact H01|].
    exact (FloatFacts.leb_trans _ _ _ H01 Hb1).
Qed.

(** C6, as the program has it: with bin edges that never decrease, when
    every retained point is farther from the border than the largest edge,
    [bins[-1]], the fast method and the accurate method end the same way, with
    the same results. *)
Theorem methods_agree a (geoms : list point) (b0 : float) (rest : list float)
    (full_output : bool) :
  nondecreasing (b0 :: rest) = true ->
  (forall p, In p geoms -> (last_edge b0 rest <? distance p a)%float = true) ->
  pcf2d_core a geoms (b0 :: rest) true full_output
  = pcf2d_core a geoms (b0 :: rest) false full_output.
Proof.
  intros Hs H. apply beyond_every_edge. intros p e Hp He.
  destruct (below_last_edge rest b0 e Hs He) as [->|Hle].
  - apply H. exact Hp.
  - exact (FloatFacts.leb_ltb_trans _ _ _ Hle (H p Hp)).
Qed.

End Methods.

Lemma methods_agree_witness :
  pcf2d_core (G := Rectangles.shapely) Rectangles.the_square
    Rectangles.two_points [0.5%float; 1.5%float] true false
  = pcf2d_core (G := Rectangles.shapely) Rectangles.the_square
      Rectangles.two_points [0.5%float; 1.5%float] false false.
Proof.
  apply (methods_agree (G := Rectangles.shapely)); [reflexivity|].
  intros p Hp. simpl in Hp.
  destruct Hp as [<-|[<-|[]]]; vm_compute; reflexivity.
Defined.

(** At the distance of the largest edge itself the two methods part: the fast
    method drops the point at distance 2 of the square, the accurate method
    keeps it with factors 1. *)
Lemma methods_differ_at_the_edge :
  (@distance Rectangles.shapely (2, 3)%float Rectangles.the_square <? 2)%float
    = false
  /\ (@distance Rectangles.shapely (3, 3)%float Rectangles.the_square <? 2)%float
       = false
  /\ pcf2d (G := Rectangles.shapely) Rectangles.two_points Rectangles.bins_1_2
       (Some Rectangles.square6) None true false
     = ([], Returned (Some (Short [0%float] [1.5%float])))
  /\ exists g,
       pcf2d (G := Rectangles.shapely) Rectangles.two_points Rectangles.bins_1_2
         (Some Rectangles.square6) None false false
       = ([], Returned (Some (Short [g] [1.5%float])))
       /\ (1 <? g)%float = true.
Proof.
  split; [vm_compute; reflexivity|]. split; [vm_compute; reflexivity|].
  split; [vm_compute; reflexivity|].
  eexists. split; vm_compute; reflexivity.
Qed.

(** ** The call and its two halves *)

Section Call.

Context {G : Geometry}.

(** Past line 126 the call is lines 131-242 on the points of interest. *)
Lemma pcf2d_past_the_border (points : list point) (bins : list float)
    (coord_border : option (list point))
    (coord_holes : option (list (list point)))
    (fast_method full_output : bool) :
  border_valid coord_border coord_holes = true ->
  pcf2d points bins coord_border coord_holes fast_method full_output
  = ([], let* geoms := geoms_of (points_of points coord_border coord_holes) in
         let* r := pcf2d_core (area_of points coord_border coord_holes) geoms
                     bins fast_method full_output in
         Returned (Some r)).
Proof.
  intros Hv. unfold pcf2d. destruct coord_border as [border|]; [|reflexivity].
  cbn [border_valid] in Hv. rewrite Hv. reflexivity.
Qed.

End Call.

(** ** No point left *)

Section Degenerate.

Context {G : Geometry}.




End Degenerate.


(** ** The border given by the caller *)

Section Border.

Context {G : Geometry}.

(** C5. A border (with its holes) that is not a valid polygon ends the call
    at once: the message is printed, nothing is computed and no numbers are
    returned. *)
Theorem invalid_border_aborts (array_positions : list point)
    (bins_distances : list float) (border : list point)
    (coord_holes : option (list (list point)))
    (fast_method full_output : bool) :
  is_valid (Polygon border coord_holes) = false ->
  pcf2d array_positions bins_distances (Some border) coord_holes
    fast_method full_output
  = ([not_valid], Returned None).
Proof. intros H. unfold pcf2d. rewrite H. reflexivity. Qed.

(** C10. With a valid border, when the intersection of the area of interest
    with the points is a single point and not a multi-part geometry, the call
    raises: a point has no [geoms]. *)
Theorem single_point_raises (array_positions : list point)
    (bins_distances : list float) (border : list point)
    (coord_holes : option (list (list point)))
    (fast_method full_output : bool) (coords : list point) :
  is_valid (Polygon border coord_holes) = true ->
  intersection (Polygon border coord_holes) array_positions = Point coords ->
  pcf2d array_positions bins_distances (Some border) coord_holes
    fast_method full_output
  = ([], Raised (AttributeError "'Point' object has no attribute 'geoms'")).
Proof. intros Hv Hi. unfold pcf2d. rewrite Hv, Hi. reflexivity. Qed.

End Border.

Lemma invalid_border_aborts_witness :
  pcf2d (G := Rectangles.shapely) Rectangles.two_points Rectangles.bins_1_2
    (Some Rectangles.bow_tie) None false false
  = ([not_valid], Returned None).
Proof.
  apply (invalid_border_aborts (G := Rectangles.shapely)). reflexivity.
Defined.

Lemma single_point_raises_witness :
  pcf2d (G := Rectangles.shapely) [(2, 3)%float] Rectangles.bins_1_2
    (Some Rectangles.square6) None false false
  = ([], Raised (AttributeError "'Point' object has no attribute 'geoms'")).
Proof.
  apply (single_point_raises (G := Rectangles.shapely) _ _ _ _ _ _
           [(2, 3)%float]); reflexivity.
Defined.

(** ** Bin edges that are too few or decrease *)

Section BinEdges.

Context {G : Geometry}.

Lemma dist_to_loc_returns (positions : list point) (i : nat) :
  i < length positions ->
  exists d, dist_to_loc positions (Z.of_nat i) = Returned d
            /\ length d = length positions.
Proof.
  intros Hi. unfold dist_to_loc.
  destruct (lookup_lt_is_Some_2 positions i Hi) as [[x y] Hp].
  rewrite (getitem_nat _ _ _ Hp). cbn [bind].
  rewrite setitem_nat by (rewrite length_map; exact Hi).
  eexists. split; [reflexivity|]. rewrite length_insert, length_map. reflexivity.
Qed.

(** With a single edge there is no bin: every round of the loop leaves the
    empty histograms as they are. *)
Lemma single_edge_rounds (positions : list point) (b0 : float)
    (ring_area : list float) (norm : list (list float)) (k n : nat) :
  k + n <= length positions -> k + n <= length norm ->
  for_each (histogram_step positions [b0] ring_area norm)
    (map Z.of_nat (seq k n)) ([], [])
  = Returned ([], []).
Proof.
  revert k. induction n as [|n IH]; intros k Hp Hn; [reflexivity|].
  cbn [seq map for_each]. unfold histogram_step at 1.
  destruct (dist_to_loc_returns positions k) as [d [Hd _]]; [lia|].
  rewrite Hd. cbn [bind]. unfold np_histogram. cbn [decreases tail zip_with
    existsb bin_counts bind map].
  destruct (lookup_lt_is_Some_2 norm k) as [row Hrow]; [lia|].
  rewrite (getitem_nat _ _ _ Hrow). cbn [bind zip_with].
  apply IH; lia.
Qed.

(** Edges that decrease are refused when the distances of the first point
    are binned. *)
Lemma decreasing_first_round (p : point) (positions : list point)
    (bins : list float) (norm : list (list float)) :
  decreases bins = true ->
  accumulate (p :: positions) bins norm
  = Raised (ValueError "`bins` must increase monotonically, when an array").
Proof.
  intros Hdec. unfold accumulate.
  change (length (p :: positions)) with (S (length positions)).
  rewrite py_range_nat. cbn [seq map for_each]. unfold histogram_step at 1.
  destruct (dist_to_loc_returns (p :: positions) 0) as [d [Hd _]];
    [simpl; lia|].
  rewrite Hd. cbn [bind].
  unfold np_histogram. rewrite Hdec. reflexivity.
Qed.

Lemma kept_length a b0 rest fast_method (geoms : list point) :
  length (kept a b0 rest fast_method geoms) <= length geoms.
Proof.
  unfold kept, far_enough. destruct fast_method; [|lia].
  induction geoms as [|p l IH]; simpl; [lia|].
  destruct (last_edge b0 rest <? distance p a)%float; simpl; lia.
Qed.

Lemma finite_rings_finite_edges (rest : list float) (b0 b1 : float) :
  rings_finite (make_rings (b0 :: b1 :: rest)) = true ->
  forallb is_finite (b0 :: b1 :: rest) = true.
Proof.
  revert b0 b1. induction rest as [|b2 rest IH]; intros b0 b1 H.
  - change (make_rings [b0; b1]) with [Build_ring b0 b1] in H.
    cbn [rings_finite forallb inner outer] in H.
    apply andb_true_iff in H as [H _].
    apply andb_true_iff in H as [H0 H1].
    cbn [forallb]. rewrite H0, H1. reflexivity.
  - change (make_rings (b0 :: b1 :: b2 :: rest))
      with (Build_ring b0 b1 :: make_rings (b1 :: b2 :: rest)) in H.
    cbn [rings_finite forallb inner outer] in H.
    apply andb_true_iff in H as [H01 H].
    apply andb_true_iff in H01 as [H0 _].
    change (forallb is_finite (b0 :: b1 :: b2 :: rest))
      with (is_finite b0 && forallb is_finite (b1 :: b2 :: rest)).
    rewrite H0. apply IH. exact H.
Qed.

(** C9, as the program has it. The bin edges are not looked at before the
    geometry work. Once the call is past the border, with points of interest
    that have [geoms] and an area of interest of area other than zero: with
    no edge at all the call is refused where the arrays of the bins are made;
    with a single edge it returns an empty g(r) and an empty r; with two
    edges or more, an edge that is not finite is refused where the rings are
    built, and finite edges that decrease are refused by the binning of the
    first point's distances, after the edge correction, and not at all when
    no point is left. *)
Theorem bin_edges_checked_late (points : list point)
    (coord_border : option (list point))
    (coord_holes : option (list (list point)))
    (fast_method full_output : bool) (geoms : list point) :
  border_valid coord_border coord_holes = true ->
  geoms_of (points_of points coord_border coord_holes) = Returned geoms ->
  (area (area_of points coord_border coord_holes) =? zero)%float = false ->
  let a := area_of points coord_border coord_holes in
  let run := fun bins =>
    pcf2d points bins coord_border coord_holes fast_method full_output in
  run [] = ([], Raised (ValueError "negative dimensions are not allowed"))
  /\ (forall b0, exists res,
        run [b0] = ([], Returned (Some res)) /\ g_and_r res = ([], []))
  /\ (forall b0 b1 rest,
        forallb is_finite (b0 :: b1 :: rest) = false ->
        run (b0 :: b1 :: rest) = ([], Raised not_finite))
  /\ (forall b0 b1 rest,
        forallb is_finite (b0 :: b1 :: rest) = true ->
        decreases (b0 :: b1 :: rest) = true ->
        match kept a b0 (b1 :: rest) fast_method geoms with
        | [] => exists res, run (b0 :: b1 :: rest) = ([], Returned (Some res))
        | _ :: _ =>
            (exists c,
               edge_correction a geoms geoms (b0 :: b1 :: rest)
                 (make_rings (b0 :: b1 :: rest))
                 (map ring_area_poly (make_rings (b0 :: b1 :: rest)))
                 fast_method full_output = Returned c)
            /\ run (b0 :: b1 :: rest)
               = ([], Raised (ValueError
                                "`bins` must increase monotonically, when an array"))
        end).
Proof.
  intros Hv Hgeoms Harea a run.
  assert (Hrun : forall bins,
            run bins = ([], let* r := pcf2d_core a geoms bins fast_method
                                        full_output in
                            Returned (Some r))).
  { intros bins. unfold run. rewrite (pcf2d_past_the_border _ _ _ _ _ _ Hv).
    rewrite Hgeoms. reflexivity. }
  fold a in Harea. split; [|split; [|split]].
  - rewrite Hrun. unfold pcf2d_core, py_div. rewrite Harea. reflexivity.
  - intros b0. rewrite Hrun, core_pipeline. cbn zeta. unfold py_div.
    rewrite Harea. cbn [bind]. change (rings_finite (make_rings [b0])) with true.
    cbv iota. unfold accumulate. rewrite py_range_nat.
    cbn [length Nat.sub replicate].
    rewrite single_edge_rounds.
    + cbn [bind]. eexists. split; [reflexivity|].
      unfold finish. destruct full_output; reflexivity.
    + simpl. lia.
    + pose proof (kept_length a b0 [] fast_method geoms) as Hk.
      unfold factors_used. destruct fast_method.
      * rewrite length_replicate. destruct full_output; simpl; [|exact Hk].
        unfold kept. lia.
      * rewrite length_map. simpl. exact Hk.
  - intros b0 b1 rest Hfin. rewrite Hrun, core_pipeline. cbn zeta.
    unfold py_div. rewrite Harea. cbn [bind].
    destruct (rings_finite (make_rings (b0 :: b1 :: rest))) eqn:Hr;
      [|reflexivity].
    apply finite_rings_finite_edges in Hr. congruence.
  - intros b0 b1 rest Hfin Hdec.
    pose proof (finite_edges_finite_rings _ Hfin) as Hr.
    destruct (kept a b0 (b1 :: rest) fast_method geoms) as [|p positions]
      eqn:Hkept.
    + rewrite Hrun, core_pipeline. cbn zeta. unfold py_div. rewrite Harea.
      cbn [bind]. rewrite Hr, Hkept. unfold accumulate.
      cbn [length py_range Z.of_nat Z.to_nat seq map for_each bind].
      eexists. reflexivity.
    + split.
      * destruct fast_method.
        -- rewrite fast_correction. eexists. reflexivity.
        -- pose proof (accurate_correction a geoms b0 (b1 :: rest) full_output)
             as Hc.
           cbn zeta in Hc. rewrite Hc. eexists. reflexivity.
      * rewrite Hrun, core_pipeline. cbn zeta. unfold py_div. rewrite Harea.
        cbn [bind]. rewrite Hr, Hkept, decreasing_first_round by exact Hdec.
        reflexivity.
Qed.

End BinEdges.

Lemma bin_edges_checked_late_witness :
  let a := Rectangles.the_square in
  let run := fun bins =>
    pcf2d (G := Rectangles.shapely) Rectangles.two_points bins
      (Some Rectangles.square6) None false false in
  run [] = ([], Raised (ValueError "negative dimensions are not allowed"))
  /\ (forall b0, exists res,
        run [b0] = ([], Returned (Some res)) /\ g_and_r res = ([], []))
  /\ (forall b0 b1 rest,
        forallb is_finite (b0 :: b1 :: rest) = false ->
        run (b0 :: b1 :: rest) = ([], Raised not_finite))
  /\ (forall b0 b1 rest,
        forallb is_finite (b0 :: b1 :: rest) = true ->
        decreases (b0 :: b1 :: rest) = true ->
        match kept (G := Rectangles.shapely) a b0 (b1 :: rest) false
                Rectangles.two_points with
        | [] => exists res, run (b0 :: b1 :: rest) = ([], Returned (Some res))
        | _ :: _ =>
            (exists c,
               edge_correction (G := Rectangles.shapely) a
                 Rectangles.two_points Rectangles.two_points
                 (b0 :: b1 :: rest) (make_rings (b0 :: b1 :: rest))
                 (map (ring_area_poly (Geometry := Rectangles.shapely))
                    (make_rings (b0 :: b1 :: rest)))
                 false false = Returned c)
            /\ run (b0 :: b1 :: rest)
               = ([], Raised (ValueError
                                "`bins` must increase monotonically, when an array"))
        end).
Proof.
  apply (bin_edges_checked_late (G := Rectangles.shapely)
           Rectangles.two_points (Some Rectangles.square6) None false false
           Rectangles.two_points); reflexivity.
Defined.

(** A single edge is too short a sequence, and edges that decrease are not
    increasing; yet the call returns on both: an empty g(r) on the first, a
    g(r) of NaN on the second, where the fast method keeps no point. *)
Lemma short_and_decreasing_edges_accepted :
  pcf2d (G := Rectangles.shapely) Rectangles.two_points [1%float]
    (Some Rectangles.square6) None false false
    = ([], Returned (Some (Short [] [])))
  /\ decreases [9%float; 8%float] = true
  /\ pcf2d (G := Rectangles.shapely) Rectangles.two_points [9%float; 8%float]
       (Some Rectangles.square6) None true false
     = ([], Returned (Some (Short [nan] [8.5%float]))).
Proof. repeat split; vm_compute; reflexivity. Qed.

(** ** The distance of a point to itself *)

Section SelfDistance.







End SelfDistance.


(** ** The entries of the normalization matrix *)

Section Entries.

Context {G : Geometry}.

(** C2, as the program has it. Every entry of the matrix is exactly 1 or the
    area of the intersection over the area of the ring's polygon, a quotient
    the program does not bound. In the accurate method the entry of point [i]
    and bin [j] is that quotient when [d <= bins[0]] or [bins[j+1] > d], and
    exactly 1 otherwise, [d] being the distance of the point to the border;
    in the fast method every entry is exactly 1. *)
Theorem normalization_entries a (geoms : list point) (b0 : float)
    (rest : list float) (fast_method full_output : bool) :
  let rings := make_rings (b0 :: rest) in
  exists c,
    edge_correction a geoms geoms (b0 :: rest) rings
      (map ring_area_poly rings) fast_method full_output = Returned c
    /\ forall i j row x,
         normalisation c !! i = Some row -> row !! j = Some x ->
         if fast_method then x = one
         else exists p r,
                geoms !! i = Some p /\ rings !! j = Some r
                /\ x = if ((distance p a <=? b0)
                           || (distance p a <? outer r))%float
                       then ratio a p r else one.
Proof.
  intros rings. destruct fast_method.
  - eexists. split; [apply fast_correction|].
    cbn [normalisation]. intros i j row x Hrow Hx.
    apply lookup_replicate in Hrow as [-> _].
    apply lookup_replicate in Hx as [-> _]. reflexivity.
  - eexists. split; [apply accurate_correction|].
    cbn [normalisation]. intros i j row x Hrow Hx.
    rewrite list_lookup_fmap in Hrow.
    destruct (geoms !! i) as [p|] eqn:Hp; [|discriminate].
    injection Hrow as <-. unfold factors in Hx.
    rewrite list_lookup_fmap in Hx. fold rings in Hx.
    destruct (rings !! j) as [r|] eqn:Hr; [|discriminate].
    injection Hx as <-. exists p, r. split; [reflexivity|].
    split; [reflexivity|].
    destruct (distance p a <=? b0)%float; reflexivity.
Qed.

End Entries.

(** An entry is 0 when the ring lies beyond the area of interest: from
    either point the ring between 20 and 30 misses the square. And an entry is
    1 at a distance that does not exceed the outer edge: the first point is
    at distance 2 of the border, the outer edge of the bin from 1 to 2. *)
Lemma entry_zero_and_entry_one_at_the_edge :
  match pcf2d (G := Rectangles.shapely) Rectangles.two_points
          Rectangles.bins_20_30 (Some Rectangles.square6) None false true with
  | (_, Returned (Some (Full _ _ _ _ _ norm _))) =>
      norm = [[0%float]; [0%float]]
  | _ => False
  end
  /\ (0 <? 0)%float = false
  /\ match pcf2d (G := Rectangles.shapely) Rectangles.two_points
             Rectangles.bins_1_2 (Some Rectangles.square6) None false true with
     | (_, Returned (Some (Full _ _ _ _ dist norm _))) =>
         dist = [2%float; 3%float] /\ norm = [[1%float]; [1%float]]
     | _ => False
     end
  /\ (2 <? 2)%float = false.
Proof. repeat split; vm_compute; reflexivity. Qed.

(** ** The loop that bins the distances *)

Section Histograms.

Lemma bin_counts_length (a bins : list float) :
  length (bin_counts a bins) = length bins - 1.
Proof.
  induction bins as [|lo bins IH]; [reflexivity|].
  destruct bins as [|hi [|r rest]]; [reflexivity|reflexivity|].
  change (bin_counts a (lo :: hi :: r :: rest))
    with (count (fun x => (lo <=? x) && (x <? hi))%float a
            :: bin_counts a (hi :: r :: rest)).
  cbn [length] in *. rewrite IH. lia.
Qed.

(** One round of the loop, for a point that has a row of factors: the
    distances are binned, unless the edges decrease. *)
Lemma histogram_step_at (positions : list point) (bins ring_area : list float)
    (norm : list (list float)) (g gn row : list float) (i : nat) :
  i < length positions -> norm !! i = Some row ->
  exists d,
    dist_to_loc positions (Z.of_nat i) = Returned d
    /\ histogram_step positions bins ring_area norm (g, gn) (Z.of_nat i)
       = if decreases bins then Raised not_monotonic
         else Returned
                (zip_with add g (map float_of_nat (bin_counts d bins)),
                 zip_with add gn
                   (zip_with div (map float_of_nat (bin_counts d bins))
                      (zip_with mul ring_area row))).
Proof.
  intros Hi Hrow.
  destruct (dist_to_loc_returns positions i Hi) as [d [Hd _]].
  exists d. split; [exact Hd|].
  unfold histogram_step. rewrite Hd. cbn [bind]. unfold np_histogram.
  destruct (decreases bins); [reflexivity|]. cbn [bind].
  rewrite (getitem_nat _ _ _ Hrow). reflexivity.
Qed.

(** The rounds from point [k] on, with edges that do not decrease: the loop
    ends, and the histograms keep one entry per bin. *)
Lemma histogram_rounds (positions : list point) (bins ring_area : list float)
    (norm : list (list float)) (m k : nat) (g gn : list float) :
  decreases bins = false ->
  k + m <= length positions -> k + m <= length norm ->
  Forall (fun row => length row = length bins - 1) norm ->
  length ring_area = length bins - 1 ->
  length g = length bins - 1 -> length gn = length bins - 1 ->
  exists g' gn',
    for_each (histogram_step positions bins ring_area norm)
      (map Z.of_nat (seq k m)) (g, gn) = Returned (g', gn')
    /\ length g' = length bins - 1 /\ length gn' = length bins - 1.
Proof.
  intros Hdec. revert k g gn.
  induction m as [|m IH]; intros k g gn Hp Hn Hrows Hra Hg Hgn.
  - exists g, gn. split; [reflexivity|]. split; assumption.
  - cbn [seq map for_each].
    destruct (lookup_lt_is_Some_2 norm k) as [row Hrow]; [lia|].
    destruct (histogram_step_at positions bins ring_area norm g gn row k)
      as [d [_ Hstep]]; [lia|exact Hrow|].
    rewrite Hstep, Hdec. cbn [bind].
    assert (Hlen : length row = length bins - 1).
    { rewrite Forall_forall in Hrows. apply Hrows.
      apply list_elem_of_lookup. exists k. exact Hrow. }
    apply IH; try lia; try assumption.
    + rewrite length_zip_with, length_map, bin_counts_length. lia.
    + rewrite !length_zip_with, length_map, bin_counts_length. lia.
Qed.

(** The rounds read only the rows of the points they visit. *)
Lemma histogram_rounds_rows (positions : list point)
    (bins ring_area : list float) (norm1 norm2 : list (list float))
    (m k : nat) (acc : list float * list float) :
  k + m <= length positions ->
  (forall i, i < k + m -> is_Some (norm1 !! i) /\ norm1 !! i = norm2 !! i) ->
  for_each (histogram_step positions bins ring_area norm1)
    (map Z.of_nat (seq k m)) acc
  = for_each (histogram_step positions bins ring_area norm2)
      (map Z.of_nat (seq k m)) acc.
Proof.
  revert k acc. induction m as [|m IH]; intros k [g gn] Hp Hrows;
    [reflexivity|].
  cbn [seq map for_each].
  destruct (Hrows k) as [[row Hrow] Heq]; [lia|].
  destruct (dist_to_loc_returns positions k) as [d [Hd _]]; [lia|].
  unfold histogram_step at 1 3. rewrite Hd. cbn [bind].
  destruct (np_histogram d bins) as [h|e]; [|reflexivity]. cbn [bind].
  rewrite (getitem_nat norm1 k row Hrow).
  rewrite (getitem_nat norm2 k row) by (rewrite <- Heq; exact Hrow).
  cbn [bind]. apply IH; [lia|]. intros i Hi. apply Hrows. lia.
Qed.

End Histograms.

(** ** How the call ends, and the shape of what it returns *)

Section Outcomes.

Context {G : Geometry}.

Lemma factors_length a (b0 : float) (rest : list float) (p : point) :
  length (factors a b0 (make_rings (b0 :: rest)) p) = length rest.
Proof. unfold factors. rewrite length_map. apply make_rings_length. Qed.

Lemma factors_used_rows a (b0 : float) (rest : list float)
    (fast_method full_output : bool) (geoms : list point) :
  Forall (fun row => length row = length rest)
    (factors_used a b0 rest fast_method full_output geoms).
Proof.
  unfold factors_used. destruct fast_method.
  - apply Forall_replicate. apply length_replicate.
  - apply Forall_fmap, Forall_forall. intros p _. apply factors_length.
Qed.

Lemma factors_used_length a (b0 : float) (rest : list float)
    (fast_method full_output : bool) (geoms : list point) :
  length (kept a b0 rest fast_method geoms)
  <= length (factors_used a b0 rest fast_method full_output geoms).
Proof.
  pose proof (kept_length a b0 rest fast_method geoms) as Hk.
  unfold factors_used. destruct fast_method.
  - rewrite length_replicate. destruct full_output; [|exact Hk].
    unfold kept. lia.
  - rewrite length_map. exact Hk.
Qed.

Lemma bin_centres_length (b0 : float) (rest : list float) :
  length (bin_centres (b0 :: rest)) = length rest.
Proof.
  unfold bin_centres. rewrite length_zip_with, removelast_firstn_len, length_take.
  cbn [tail length Init.Nat.pred]. lia.
Qed.

(** Line 218: entry [j] of r is the middle of bin [j]. *)
Lemma bin_centres_lookup (bins : list float) (j : nat) (lo hi : float) :
  bins !! j = Some lo -> bins !! S j = Some hi ->
  bin_centres bins !! j = Some ((hi + lo) / two)%float.
Proof.
  intros Hlo Hhi. unfold bin_centres.
  rewrite lookup_zip_with, lookup_tail, Hhi. cbn [mbind option_bind].
  rewrite removelast_firstn_len, lookup_take_lt, Hlo; [reflexivity|].
  apply lookup_lt_Some in Hhi. lia.
Qed.

(** The loop over the kept points, whatever the method: it ends, with one
    entry per bin in each histogram, unless the edges decrease and a point is
    there to bin. *)
Lemma accumulate_outcome a (geoms : list point) (b0 : float)
    (rest : list float) (fast_method full_output : bool) :
  let positions := kept a b0 rest fast_method geoms in
  let norm := factors_used a b0 rest fast_method full_output geoms in
  (decreases (b0 :: rest) = true /\ positions <> []
   /\ accumulate positions (b0 :: rest) norm = Raised not_monotonic)
  \/ ((decreases (b0 :: rest) = false \/ positions = [])
      /\ exists g gn,
           accumulate positions (b0 :: rest) norm = Returned (g, gn)
           /\ length g = length rest /\ length gn = length rest).
Proof.
  intros positions norm.
  destruct (decreases (b0 :: rest)) eqn:Hdec.
  - destruct positions as [|p ps] eqn:Hpos.
    + right. split; [right; reflexivity|].
      exists (replicate (length rest) zero), (replicate (length rest) zero).
      unfold accumulate. cbn [length py_range Z.of_nat Z.to_nat seq map for_each].
      replace (S (length rest) - 1) with (length rest) by lia.
      rewrite length_replicate. repeat split; reflexivity.
    + left. split; [reflexivity|]. split; [discriminate|].
      apply decreasing_first_round. exact Hdec.
  - right. split; [left; reflexivity|]. unfold accumulate.
    rewrite py_range_nat.
    destruct (histogram_rounds positions (b0 :: rest)
                (map exact_area (make_rings (b0 :: rest))) norm
                (length positions) 0
                (replicate (length (b0 :: rest) - 1) zero)
                (replicate (length (b0 :: rest) - 1) zero))
      as [g [gn [Hret [Hg Hgn]]]].
    + exact Hdec.
    + lia.
    + apply factors_used_length.
    + cbn [length]. replace (S (length rest) - 1) with (length rest) by lia.
      apply factors_used_rows.
    + rewrite length_map, make_rings_length. simpl. lia.
    + apply length_replicate.
    + apply length_replicate.
    + exists g, gn. split; [exact Hret|].
      cbn [length] in Hg, Hgn. split; lia.
Qed.

(** X1. The call, from the area of interest on, raises nothing but a
    division by zero (an area of interest of area zero), the refusal of a
    negative length (no bin edge), the refusal by [buffer] of an edge that is
    not finite, and the refusal by [np.histogram] of edges that decrease: no
    index is ever out of range. *)
Theorem raises_only (a : region) (geoms : list point)
    (bins_distances : list float) (fast_method full_output : bool) (e : exn) :
  pcf2d_core a geoms bins_distances fast_method full_output = Raised e ->
  (e = ZeroDivisionError "float division by zero"
   /\ (area a =? zero)%float = true)
  \/ (e = ValueError "negative dimensions are not allowed"
      /\ bins_distances = [])
  \/ (e = not_finite /\ forallb is_finite bins_distances = false)
  \/ (e = not_monotonic /\ decreases bins_distances = true).
Proof.
  intros H. destruct bins_distances as [|b0 rest].
  - unfold pcf2d_core, py_div in H.
    destruct (area a =? zero)%float; cbn [bind] in H; injection H as <-.
    + left. split; reflexivity.
    + right. left. split; reflexivity.
  - rewrite core_pipeline in H. cbn zeta in H. unfold py_div in H.
    destruct (area a =? zero)%float; cbn [bind] in H.
    + injection H as <-. left. split; reflexivity.
    + destruct (rings_finite (make_rings (b0 :: rest))) eqn:Hr.
      * destruct (accumulate_outcome a geoms b0 rest fast_method full_output)
          as [[Hdec [_ Hacc]]|[_ [g [gn [Hacc _]]]]];
          cbn zeta in Hacc; rewrite Hacc in H; cbn [bind] in H.
        -- injection H as <-. right. right. right.
           split; [reflexivity|exact Hdec].
        -- discriminate H.
      * injection H as <-. right. right. left. split; [reflexivity|].
        destruct (forallb is_finite (b0 :: rest)) eqn:Hfin; [|reflexivity].
        apply finite_edges_finite_rings in Hfin. congruence.
Qed.

(** X2. With a border that is valid (or none), points of interest that come
    as a collection (line 131 reads its [geoms]), an area of interest of area
    other than zero and at least one bin edge, edges that are finite and do
    not decrease are all the call needs to return, whatever the points and
    the method; g(r) and r then have one entry per bin. *)
Theorem returns_on_edges_in_order (points : list point)
    (coord_border : option (list point))
    (coord_holes : option (list (list point)))
    (fast_method full_output : bool) (geoms : list point)
    (b0 : float) (rest : list float) :
  border_valid coord_border coord_holes = true ->
  geoms_of (points_of points coord_border coord_holes) = Returned geoms ->
  (area (area_of points coord_border coord_holes) =? zero)%float = false ->
  forallb is_finite (b0 :: rest) = true ->
  decreases (b0 :: rest) = false ->
  exists res,
    pcf2d points (b0 :: rest) coord_border coord_holes fast_method full_output
    = ([], Returned (Some res))
    /\ length (fst (g_and_r res)) = length rest
    /\ length (snd (g_and_r res)) = length rest.
Proof.
  intros Hv Hgeoms Harea Hfin Hdec.
  rewrite (pcf2d_past_the_border _ _ _ _ _ _ Hv), Hgeoms. cbn [bind].
  rewrite core_pipeline. cbn zeta. unfold py_div.
  rewrite Harea. cbn [bind].
  rewrite (finite_edges_finite_rings _ Hfin).
  destruct (accumulate_outcome (area_of points coord_border coord_holes)
              geoms b0 rest fast_method full_output)
    as [[Hdec' _]|[_ [g [gn [Hacc [Hg Hgn]]]]]]; [congruence|].
  cbn zeta in Hacc. rewrite Hacc. cbn [bind]. eexists. split; [reflexivity|].
  unfold finish. cbn [fst snd].
  destruct full_output; cbn [g_and_r fst snd];
    rewrite length_map, bin_centres_length; (split; [exact Hgn|reflexivity]).
Qed.

End Outcomes.

Lemma raises_only_witness :
  (not_finite = ZeroDivisionError "float division by zero"
   /\ (area (Geometry := Rectangles.shapely) Rectangles.the_square =? zero)%float
      = true)
  \/ (not_finite = ValueError "negative dimensions are not allowed"
      /\ [0%float; infinity] = [])
  \/ (not_finite = not_finite /\ forallb is_finite [0%float; infinity] = false)
  \/ (not_finite = not_monotonic /\ decreases [0%float; infinity] = true).
Proof.
  apply (raises_only (G := Rectangles.shapely) Rectangles.the_square
           Rectangles.two_points [0%float; infinity] false false).
  vm_compute. reflexivity.
Defined.

Lemma returns_on_edges_in_order_witness :
  exists res,
    pcf2d (G := Rectangles.shapely) Rectangles.two_points Rectangles.bins_1_2
      (Some Rectangles.square6) None false false
    = ([], Returned (Some res))
    /\ length (fst (g_and_r res)) = 1
    /\ length (snd (g_and_r res)) = 1.
Proof.
  apply (returns_on_edges_in_order (G := Rectangles.shapely)
           Rectangles.two_points (Some Rectangles.square6) None false false
           Rectangles.two_points 1%float [2%float]); reflexivity.
Defined.

(** ** The values of the full output, and what the flag changes *)

Section FullOutput.

Context {G : Geometry}.

Lemma filter_sublist {A} (f : A -> bool) (l : list A) :
  sublist (List.filter f l) l.
Proof.
  induction l as [|x l IH]; simpl; [constructor|].
  destruct (f x); [apply sublist_skip|apply sublist_cons]; exact IH.
Qed.

(** X3. The values of the full output go together: the points returned are
    points of the area of interest in their order (all of them for the
    accurate method), [distance_to_boundary] holds the distance of each
    returned point, in the same order, and the normalization factors have one
    row per returned point and one column per bin. *)
Theorem full_output_aligned (a : region) (geoms : list point) (b0 : float)
    (rest : list float) (fast_method : bool) (res : results) :
  pcf2d_core a geoms (b0 :: rest) fast_method true = Returned res ->
  exists g r pdf positions dist norm densite,
    res = Full g r pdf positions dist norm densite
    /\ sublist positions geoms
    /\ (if fast_method then True else positions = geoms)
    /\ dist = map (fun p => distance p a) positions
    /\ length norm = length positions
    /\ Forall (fun row => length row = length rest) norm
    /\ length pdf = length rest.
Proof.
  intros H. rewrite core_pipeline in H. cbn zeta in H.
  destruct (py_div (length geoms) (area a)) as [densite|e]; [|discriminate].
  cbn [bind] in H.
  destruct (rings_finite (make_rings (b0 :: rest))); [|discriminate].
  destruct (accumulate_outcome a geoms b0 rest fast_method true)
    as [[_ [_ Hacc]]|[_ [g [gn [Hacc [Hg Hgn]]]]]];
    cbn zeta in Hacc; rewrite Hacc in H; cbn [bind] in H; [discriminate|].
  injection H as <-. unfold finish. cbn [fst snd].
  rewrite andb_false_r. do 7 eexists. split; [reflexivity|].
  split; [|split; [|split; [reflexivity|split; [|split]]]].
  - unfold kept. destruct fast_method; [apply filter_sublist|reflexivity].
  - destruct fast_method; [exact I|reflexivity].
  - unfold factors_used, kept. destruct fast_method.
    + apply length_replicate.
    + apply length_map.
  - apply factors_used_rows.
  - rewrite length_map. exact Hg.
Qed.

(** X4. Whenever the call returns, entry [j] of r is the middle of bin [j],
    [(bins[j+1] + bins[j]) / 2], whatever the points, the area of interest
    and the method. *)
Theorem radii_are_bin_centres (a : region) (geoms : list point)
    (bins_distances : list float) (fast_method full_output : bool)
    (res : results) (j : nat) (lo hi : float) :
  pcf2d_core a geoms bins_distances fast_method full_output = Returned res ->
  bins_distances !! j = Some lo -> bins_distances !! S j = Some hi ->
  snd (g_and_r res) !! j = Some ((hi + lo) / two)%float.
Proof.
  intros H Hlo Hhi. destruct bins_distances as [|b0 rest]; [discriminate Hlo|].
  rewrite core_pipeline in H. cbn zeta in H.
  destruct (py_div (length geoms) (area a)) as [densite|e]; [|discriminate].
  cbn [bind] in H.
  destruct (rings_finite (make_rings (b0 :: rest))); [|discriminate].
  destruct (accumulate _ _ _) as [acc|e]; [|discriminate].
  cbn [bind] in H. injection H as <-. unfold finish.
  destruct full_output; cbn [g_and_r snd];
    apply bin_centres_lookup; assumption.
Qed.

(** X5. Asking for the full output changes neither how the call ends nor
    g(r) and r: in the fast method the matrix of factors is rebuilt with
    fewer rows, but the rows read are the same. *)
Theorem full_output_keeps_g_and_r (a : region) (geoms : list point)
    (bins_distances : list float) (fast_method : bool) :
  (let* res := pcf2d_core a geoms bins_distances fast_method true in
   Returned (g_and_r res))
  = (let* res := pcf2d_core a geoms bins_distances fast_method false in
     Returned (g_and_r res)).
Proof.
  destruct bins_distances as [|b0 rest].
  - unfold pcf2d_core. destruct (py_div _ _); reflexivity.
  - rewrite !core_pipeline. cbn zeta.
    destruct (py_div (length geoms) (area a)) as [densite|e]; [|reflexivity].
    cbn [bind].
    destruct (rings_finite (make_rings (b0 :: rest))); [|reflexivity].
    replace (accumulate (kept a b0 rest fast_method geoms) (b0 :: rest)
               (factors_used a b0 rest fast_method true geoms))
      with (accumulate (kept a b0 rest fast_method geoms) (b0 :: rest)
              (factors_used a b0 rest fast_method false geoms)).
    + destruct (accumulate _ _ _) as [acc|e]; reflexivity.
    + unfold accumulate. rewrite py_range_nat.
      apply histogram_rounds_rows; [lia|]. intros i Hi. cbn [Nat.add] in Hi.
      unfold factors_used. destruct fast_method; [|split; [|reflexivity]].
      * pose proof (kept_length a b0 rest true geoms) as Hk.
        unfold kept in Hi, Hk.
        rewrite !lookup_replicate_2 by lia. split; [eexists|]; reflexivity.
      * apply lookup_lt_is_Some_2. rewrite length_map. exact Hi.
Qed.

End FullOutput.

Lemma full_output_aligned_witness :
  exists g r pdf positions dist norm densite,
    Full [0%float] [1.5%float] [0%float] [(3, 3)%float] [3%float] [[1%float]]
      (float_of_nat 2 / 36)%float
    = Full g r pdf positions dist norm densite
    /\ sublist positions Rectangles.two_points
    /\ True
    /\ dist = map (fun p => @distance Rectangles.shapely p Rectangles.the_square)
                positions
    /\ length norm = length positions
    /\ Forall (fun row => length row = 1) norm
    /\ length pdf = 1.
Proof.
  apply (full_output_aligned (G := Rectangles.shapely) Rectangles.the_square
           Rectangles.two_points 1%float [2%float] true).
  vm_compute. reflexivity.
Defined.

Lemma radii_are_bin_centres_witness :
  snd (g_and_r (Short [0%float] [1.5%float])) !! 0
  = Some ((2 + 1) / two)%float.
Proof.
  apply (radii_are_bin_centres (G := Rectangles.shapely) Rectangles.the_square
           Rectangles.two_points Rectangles.bins_1_2 true false
           (Short [0%float] [1.5%float]) 0 1%float 2%float);
    vm_compute; reflexivity.
Defined.

(** ** What the fast method asks of the geometry *)

Section FastGeometry.

(** X7. The fast method uses the area of the area of interest and the
    distances of its points to the border, and nothing else of the geometry:
    two geometries that agree on these give the same outcome, whatever the
    areas of their rings and of their intersections. *)
Theorem fast_method_needs_no_rings (G1 G2 : Geometry) (a : region)
    (geoms : list point) (bins_distances : list float) (full_output : bool) :
  @area G1 a = @area G2 a ->
  (forall p, In p geoms -> @distance G1 p a = @distance G2 p a) ->
  @pcf2d_core G1 a geoms bins_distances true full_output
  = @pcf2d_core G2 a geoms bins_distances true full_output.
Proof.
  intros Harea Hdist. destruct bins_distances as [|b0 rest].
  - unfold pcf2d_core. rewrite Harea. destruct (py_div _ _); reflexivity.
  - rewrite !core_pipeline. cbn zeta. rewrite Harea.
    unfold kept, factors_used, far_enough.
    assert (Hkept :
      List.filter (fun p => (last_edge b0 rest <? @distance G1 p a)%float) geoms
      = List.filter (fun p => (last_edge b0 rest <? @distance G2 p a)%float) geoms).
    { apply filter_ext_in. intros p Hp. rewrite (Hdist p Hp). reflexivity. }
    rewrite Hkept.
    assert (Hmap : forall l, (forall p, In p l -> In p geoms) ->
              map (fun p => @distance G1 p a) l
              = map (fun p => @distance G2 p a) l).
    { intros l Hl. apply map_ext_in. intros p Hp. apply Hdist, Hl, Hp. }
    rewrite (Hmap (if true && negb full_output then geoms else _)).
    + reflexivity.
    + intros p Hp. destruct full_output; cbn [andb negb] in Hp; [|exact Hp].
      apply filter_In in Hp as [Hp _]. exact Hp.
Qed.

End FastGeometry.

Lemma fast_method_needs_no_rings_witness :
  @pcf2d_core Rectangles.shapely Rectangles.the_square Rectangles.two_points
    Rectangles.bins_1_2 true true
  = @pcf2d_core
      {| is_valid := @is_valid Rectangles.shapely;
         area := @area Rectangles.shapely;
         intersection := @intersection Rectangles.shapely;
         distance := @distance Rectangles.shapely;
         ring_area_poly := fun _ => nan;
         ring_intersection_area := fun _ _ _ => nan |}
      Rectangles.the_square Rectangles.two_points Rectangles.bins_1_2
      true true.
Proof.
  apply fast_method_needs_no_rings; [reflexivity|].
  intros p Hp. reflexivity.
Defined.
